(** * ColorBuffer.h: the context helper, its scoped guard, and the color buffer

    Shallow embedding of [host/libs/libOpenglRender.bak/ColorBuffer.h].

    The header defines [ColorBuffer::Helper] (four pure-virtual methods),
    [ColorBuffer::RecursiveScopedHelperContext] (inline, in full), the data
    members of [ColorBuffer] with their default initialisers, and the two
    inline accessors [getWidth] and [getHeight].  These are embedded from
    the source.  The other member functions are only declared there; their
    definitions are modelled from the specification, and every such
    definition says so.

    C++ objects live in a store; a [Helper*] is either [NULL] or an address
    into that store.  Virtual calls go through the pointer, so a call through
    [NULL] (or through an address that holds no object) is a fault, and every
    completed call is recorded in a trace so that calls can be counted. *)

From Stdlib Require Import ZArith List Bool Lia.
From stdpp Require Import base option list gmap.

Set Default Proof Using "Type".
Local Open Scope Z_scope.

(** ** Addresses and pointers *)

Definition loc := positive.

(** A possibly-null pointer: [None] is [NULL]. *)
Definition ptr := option loc.
Definition NULL : ptr := None.

(** ** ColorBuffer::Helper

    The abstract class has four pure-virtual methods.  [H] is the state of
    a concrete provider; the two [const] methods only read it. *)

Class Helper (H : Type) := {
  setupContext : H -> bool * H;
  teardownContext : H -> H;
  getTextureDraw : H -> ptr;
  isBound : H -> bool
}.

Inductive HelperMethod :=
| CallSetupContext
| CallTeardownContext
| CallGetTextureDraw
| CallIsBound.

Definition HelperMethod_eqb (a b : HelperMethod) : bool :=
  match a, b with
  | CallSetupContext, CallSetupContext
  | CallTeardownContext, CallTeardownContext
  | CallGetTextureDraw, CallGetTextureDraw
  | CallIsBound, CallIsBound => true
  | _, _ => false
  end.

(** ** The store, the trace and the monad of method bodies *)

(** Calls that leave the core: the GPU driver and the external
    collaborators (texture drawing, resizing, YUV conversion). *)
Inductive DriverOp :=
| DrvCreateImage
| DrvCreateBlitImage
| DrvGenFramebuffer
| DrvTexSubImage
| DrvReadPixels
| DrvDraw
| DrvPost
| DrvBindTexture
| DrvBindRenderbuffer
| DrvCopyReadBuffer
| DrvNewResizer
| DrvResize
| DrvNewYUVConverter
| DrvYUVConvert.

Inductive Event :=
| HelperCall (l : loc) (m : HelperMethod)
| DriverCall (c : DriverOp).

(** The world outside a method body: the helper objects, the state of the
    driver (opaque, type [D]), the pixel storage of the GPU images by
    texture name, and the trace of calls, newest first. *)
Record World (H D : Type) := mkWorld {
  helpers : gmap loc H;
  driver : D;
  images : gmap Z (list Byte.byte);
  trace : list Event
}.
Arguments mkWorld {H D} _ _ _ _.
Arguments helpers {H D} _.
Arguments driver {H D} _.
Arguments images {H D} _.
Arguments trace {H D} _.

Inductive Fault :=
| NullDereference
| DanglingPointer
| ContractViolation.

Inductive Outcome (S A : Type) :=
| Done (a : A) (s : S)
| Crash (f : Fault).
Arguments Done {S A} _ _.
Arguments Crash {S A} _.

Definition M (H D A : Type) := World H D -> Outcome (World H D) A.

Definition ret {H D A} (a : A) : M H D A := fun w => Done a w.

Definition bind {H D A B} (m : M H D A) (k : A -> M H D B) : M H D B :=
  fun w => match m w with
           | Done a w' => k a w'
           | Crash f => Crash f
           end.

Declare Scope cxx_scope.
Delimit Scope cxx_scope with cxx.
Notation "x <- c1 ;; c2" := (bind c1 (fun x => c2))
  (at level 100, c1 at next level, right associativity) : cxx_scope.
Notation "c1 ;; c2" := (bind c1 (fun _ => c2))
  (at level 100, right associativity) : cxx_scope.
Local Open Scope cxx_scope.

Definition crash {H D A} (f : Fault) : M H D A := fun _ => Crash f.

(** The two ways a virtual call changes the world. *)
Definition log_event {H D} (e : Event) (w : World H D) : World H D :=
  mkWorld (helpers w) (driver w) (images w) (e :: trace w).

Definition put_helper {H D} (l : loc) (h : H) (w : World H D) : World H D :=
  mkWorld (<[l := h]> (helpers w)) (driver w) (images w) (trace w).

Definition record_call {H D} (e : Event) : M H D unit :=
  fun w => Done tt (log_event e w).

(** [p->...]: read the object behind a pointer. *)
Definition deref {H D} (p : ptr) : M H D (loc * H) :=
  fun w => match p with
           | None => Crash NullDereference
           | Some l => match helpers w !! l with
                       | Some h => Done (l, h) w
                       | None => Crash DanglingPointer
                       end
           end.

Definition store {H D} (l : loc) (h : H) : M H D unit :=
  fun w => Done tt (put_helper l h w).

Section VirtualCalls.
Context {H D : Type} `{Helper H}.

(** [p->isBound()] *)
Definition call_isBound (p : ptr) : M H D bool :=
  lh <- deref p ;;
  record_call (HelperCall lh.1 CallIsBound) ;;
  ret (isBound lh.2).

(** [p->setupContext()] *)
Definition call_setupContext (p : ptr) : M H D bool :=
  lh <- deref p ;;
  record_call (HelperCall lh.1 CallSetupContext) ;;
  store lh.1 (setupContext lh.2).2 ;;
  ret (setupContext lh.2).1.

(** [p->teardownContext()] *)
Definition call_teardownContext (p : ptr) : M H D unit :=
  lh <- deref p ;;
  record_call (HelperCall lh.1 CallTeardownContext) ;;
  store lh.1 (teardownContext lh.2).

(** [p->getTextureDraw()] *)
Definition call_getTextureDraw (p : ptr) : M H D ptr :=
  lh <- deref p ;;
  record_call (HelperCall lh.1 CallGetTextureDraw) ;;
  ret (getTextureDraw lh.2).

(** A provider on which a successful [setupContext()] leaves a context
    bound, so that [isBound()] answers true afterwards.  The interface does
    not promise it; it is what makes the guard recursive. *)
Definition setup_makes_bound : Prop :=
  forall h : H, (setupContext h).1 = true -> isBound (setupContext h).2 = true.
End VirtualCalls.

(** Number of calls of method [m] recorded in a trace. *)
Definition is_call (m : HelperMethod) (e : Event) : bool :=
  match e with
  | HelperCall _ m' => HelperMethod_eqb m m'
  | DriverCall _ => false
  end.

Definition is_driver_call (e : Event) : bool :=
  match e with
  | HelperCall _ _ => false
  | DriverCall _ => true
  end.

Definition calls (m : HelperMethod) (tr : list Event) : nat :=
  length (List.filter (is_call m) tr).

(** Number of calls into the driver or a collaborator. *)
Definition driver_calls (tr : list Event) : nat :=
  length (List.filter is_driver_call tr).

(** ** ColorBuffer::RecursiveScopedHelperContext *)

Module RecursiveScopedHelperContext.

Record t := mk {
  mHelper : ptr;
  mNeedUnbind : bool
}.

Section Methods.
Context {H D : Type} `{Helper H}.

(** The constructor.  [mHelper(helper)] and the default member
    initialiser [mNeedUnbind = false] run first; the body then returns
    early when a context is already bound, clears [mHelper] when the
    setup fails, and otherwise records that an unbind is owed. *)
Definition ctor (helper : ptr) : M H D t :=
  let this := mk helper false in
  bound <- call_isBound helper ;;
  if bound then ret this
  else
    ok <- call_setupContext helper ;;
    if negb ok then ret (mk NULL (mNeedUnbind this))
    else ret (mk (mHelper this) true).

(** A guard that owes a teardown still holds its helper. *)
Definition owes_with_helper (this : t) : Prop :=
  mNeedUnbind this = true -> mHelper this <> NULL.

(** [bool isOk() const { return mHelper != NULL; }] *)
Definition isOk (this : t) : bool :=
  match mHelper this with
  | Some _ => true
  | None => false
  end.

(** [void release()] *)
Definition release (this : t) : M H D t :=
  this1 <- (if mNeedUnbind this
            then call_teardownContext (mHelper this) ;;
                 ret (mk (mHelper this) false)
            else ret this) ;;
  ret (mk NULL (mNeedUnbind this1)).

(** [~RecursiveScopedHelperContext() { release(); }]: the object is gone
    afterwards, so nothing is returned. *)
Definition dtor (this : t) : M H D unit :=
  release this ;; ret tt.

(** [n] explicit calls of [release()] in a row. *)
Fixpoint release_times (n : nat) (this : t) : M H D t :=
  match n with
  | O => ret this
  | S n' => this1 <- release this ;; release_times n' this1
  end.

(** The rest of a guard's life: [n] explicit releases, then the
    destructor at scope exit. *)
Definition release_then_destroy (n : nat) (this : t) : M H D unit :=
  this1 <- release_times n this ;; dtor this1.

(** [n] guards on one helper, each one constructed inside the scope of the
    one before it and destroyed at the end of its own scope:
<<
      { RecursiveScopedHelperContext c1(helper);
        { RecursiveScopedHelperContext c2(helper);
          ...
        }
      }
>> *)
Fixpoint nested_scopes (n : nat) (helper : ptr) : M H D unit :=
  match n with
  | O => ret tt
  | S n' =>
      context <- ctor helper ;;
      nested_scopes n' helper ;;
      dtor context
  end.

(** An outer guard released by hand while an inner guard on the same
    helper is still in scope; the released outer guard and the inner guard
    are handed back. *)
Definition release_outer_first (helper : ptr) : M H D (t * t) :=
  outer <- ctor helper ;;
  inner <- ctor helper ;;
  outer1 <- release outer ;;
  ret (outer1, inner).
End Methods.

End RecursiveScopedHelperContext.

(** ** Scalar types of the GL headers *)

(** [GLuint], [GLenum] and [HandleType] are 32-bit unsigned integers. *)
Definition GLuint := Z.
Definition GLenum := Z.
Definition HandleType := Z.

(** Conversion of an [int] to [GLuint] wraps modulo 2^32. *)
Definition to_GLuint (z : Z) : GLuint := z mod 2 ^ 32.

(** The range of a C [int]. *)
Definition is_int (z : Z) : Prop := - 2 ^ 31 <= z < 2 ^ 31.

(** A [float] is only ever passed through to the drawing helper; it is
    carried as its 32-bit pattern. *)
Definition float := Z.

(** Modelled from the spec: the enumeration of [FrameworkFormats.h], which
    is not part of the sources.  The spec gives it as "GL_COMPATIBLE" and
    the "YUV variants"; the variants are told apart by a number. *)
Inductive FrameworkFormat :=
| FRAMEWORK_FORMAT_GL_COMPATIBLE
| FRAMEWORK_FORMAT_YUV (variant : nat).

Definition is_yuv (f : FrameworkFormat) : bool :=
  match f with
  | FRAMEWORK_FORMAT_GL_COMPATIBLE => false
  | FRAMEWORK_FORMAT_YUV _ => true
  end.

(** ** What the core consumes from outside

    Modelled from the spec: the GPU driver and the external collaborators
    (drawing helper, texture resizer, YUV converter), none of which is part
    of the sources.  Each is a transition of the opaque driver state [D];
    whether a call succeeds is up to the driver. *)
Class Platform (D : Type) := {
  (** allocation of an image and its texture, sized width x height;
      [None] when the allocation fails *)
  createImage : ptr -> Z -> Z -> GLenum -> bool -> D -> option (positive * loc) * D;
  (** allocation of the secondary (blit) image and texture *)
  createBlitImage : ptr -> Z -> Z -> GLenum -> D -> (positive * loc) * D;
  (** a new framebuffer object name; names are never 0 *)
  genFramebuffer : D -> positive * D;
  (** the drawing helper blits a texture to the bound destination *)
  textureDraw : ptr -> GLuint -> D -> bool * D;
  (** the drawing helper presents a texture, rotated and translated *)
  texturePost : ptr -> GLuint -> float -> float -> float -> D -> bool * D;
  (** image-target binding of the active texture / renderbuffer *)
  imageTargetTexture : ptr -> D -> bool * D;
  imageTargetRenderbuffer : ptr -> D -> bool * D;
  (** the pixels of the current read surface, if there is one *)
  currentReadSurface : D -> option (list Byte.byte) * D;
  (** the caller's current viewport size *)
  viewport : D -> Z * Z;
  (** the texture resizer: construction, and resize(texture, w, h) *)
  newTextureResize : Z -> Z -> D -> loc * D;
  resize : loc -> GLuint -> Z -> Z -> D -> GLuint * D;
  (** the YUV converter: construction, and convert(format, w, h, bytes) *)
  newYUVConverter : Z -> Z -> FrameworkFormat -> D -> loc * D;
  yuvConvert : loc -> FrameworkFormat -> Z -> Z -> list Byte.byte -> D -> list Byte.byte * D
}.

(** Modelled from the spec: the pixel-format tables of the GL headers and
    the conversion between a caller's format/type and the internal
    representation, which are not part of the sources. *)
Class PixelFormats := {
  GL_RGBA : GLenum;
  GL_UNSIGNED_BYTE : GLenum;
  (** size in bytes of one pixel in a format/type pair *)
  bytesPerPixel : GLenum -> GLenum -> nat;
  (** the data type in which an internal format is stored *)
  internalType : GLenum -> GLenum;
  (** conversion of packed pixels from one format/type pair to another *)
  convertPixels : GLenum * GLenum -> GLenum * GLenum -> list Byte.byte -> list Byte.byte
}.

(** ** Strided copies into and out of a row-major pixel store

    Modelled from the spec: the pixel storage of a GPU image, which lives
    in the driver and is not part of the sources.  An image is a row-major
    array of packed pixels; a rectangle of it is a run of equally long
    rows, one stride apart. *)

(** Overwrite the bytes of [data] starting at offset [off] by [seg]. *)
Definition splice (data : list Byte.byte) (off : nat) (seg : list Byte.byte)
  : list Byte.byte :=
  take off data ++ seg ++ drop (off + length seg) data.

(** Write [rows] rows of [rowlen] bytes taken from [src], the first at
    offset [off], each next one [stride] bytes further. *)
Fixpoint write_rows (data : list Byte.byte) (stride off rowlen rows : nat)
    (src : list Byte.byte) : list Byte.byte :=
  match rows with
  | O => data
  | S r => write_rows (splice data off (take rowlen src))
             stride (off + stride) rowlen r (drop rowlen src)
  end.

(** Read [rows] rows of [rowlen] bytes, packed one after the other. *)
Fixpoint read_rows (data : list Byte.byte) (stride off rowlen rows : nat)
  : list Byte.byte :=
  match rows with
  | O => []
  | S r => take rowlen (drop off data) ++ read_rows data stride (off + stride) rowlen r
  end.

(** The rows written by [write_rows] fit into [data]. *)
Definition rows_fit (data : list Byte.byte) (stride off rowlen rows : nat)
  : Prop :=
  (rows <> 0 -> off + (rows - 1) * stride + rowlen <= length data)%nat.

(** ** ColorBuffer *)

(** The public operations of a color buffer, with their arguments. *)
Inductive Op :=
| OpReadPixels (x y width height : Z) (p_format p_type : GLenum)
| OpSubUpdate (x y width height : Z) (p_format p_type : GLenum)
    (pixels : list Byte.byte)
| OpDraw
| OpScale
| OpPost (tex : GLuint) (rotation dx dy : float)
| OpBindToTexture
| OpBindToRenderbuffer
| OpBlitFromCurrentReadBuffer
| OpReadback.

(** What an operation hands back: nothing, a [bool], a texture name, or the
    bytes it wrote to the caller's buffer. *)
Inductive Ret :=
| RetVoid
| RetBool (b : bool)
| RetName (n : GLuint)
| RetPixels (bytes : list Byte.byte).

(** Modelled from the spec: the two choices the spec leaves to the
    implementer of [ColorBuffer.cpp], which is not part of the sources: the
    format substituted for the advisory [p_internalFormat], and which
    operations need the separate copy target (the blit image/texture). *)
Class Implementer := {
  chooseInternalFormat : GLenum -> GLenum;
  usesBlitTarget : Op -> bool
}.

Module ColorBuffer.

(** The private data members, in the order of the class body. *)
Record t := mk {
  m_tex : GLuint;
  m_blitTex : GLuint;
  m_eglImage : ptr;
  m_blitEGLImage : ptr;
  m_width : GLuint;
  m_height : GLuint;
  m_fbo : GLuint;
  m_internalFormat : GLenum;
  m_display : ptr;
  m_helper : ptr;
  m_resizer : ptr;
  m_frameworkFormat : FrameworkFormat;
  m_yuv_conversion_fbo : GLuint;
  m_yuv_converter : ptr;
  mHndl : HandleType
}.

(** [GLuint getWidth() const { return m_width; }] *)
Definition getWidth (this : t) : GLuint := m_width this.

(** [GLuint getHeight() const { return m_height; }] *)
Definition getHeight (this : t) : GLuint := m_height this.

(** Modelled from the spec: the private constructor
    [ColorBuffer(display, hndl, helper)], declared but not defined in the
    header.  Every member takes its default member initialiser from the
    class body (these are in the source); the display, the handle and the
    helper are "fixed at creation" from the arguments.  [m_frameworkFormat]
    has no initialiser; [create] assigns it before any use. *)
Definition ctor (display : ptr) (hndl : HandleType) (helper : ptr) : t :=
  {| m_tex := 0; m_blitTex := 0; m_eglImage := NULL; m_blitEGLImage := NULL;
     m_width := 0; m_height := 0; m_fbo := 0; m_internalFormat := 0;
     m_display := display; m_helper := helper; m_resizer := NULL;
     m_frameworkFormat := FRAMEWORK_FORMAT_GL_COMPATIBLE;
     m_yuv_conversion_fbo := 0; m_yuv_converter := NULL; mHndl := hndl |}.

(** Assignments to single members. *)
Definition set_primary (tex : GLuint) (img : ptr) (this : t) : t :=
  mk tex (m_blitTex this) img (m_blitEGLImage this) (m_width this)
     (m_height this) (m_fbo this) (m_internalFormat this) (m_display this)
     (m_helper this) (m_resizer this) (m_frameworkFormat this)
     (m_yuv_conversion_fbo this) (m_yuv_converter this) (mHndl this).

Definition set_blit (tex : GLuint) (img : ptr) (this : t) : t :=
  mk (m_tex this) tex (m_eglImage this) img (m_width this)
     (m_height this) (m_fbo this) (m_internalFormat this) (m_display this)
     (m_helper this) (m_resizer this) (m_frameworkFormat this)
     (m_yuv_conversion_fbo this) (m_yuv_converter this) (mHndl this).

Definition set_format (width height : GLuint) (fmt : GLenum)
    (ffmt : FrameworkFormat) (this : t) : t :=
  mk (m_tex this) (m_blitTex this) (m_eglImage this) (m_blitEGLImage this)
     width height (m_fbo this) fmt (m_display this)
     (m_helper this) (m_resizer this) ffmt
     (m_yuv_conversion_fbo this) (m_yuv_converter this) (mHndl this).

Definition set_resizer (r : ptr) (this : t) : t :=
  mk (m_tex this) (m_blitTex this) (m_eglImage this) (m_blitEGLImage this)
     (m_width this) (m_height this) (m_fbo this) (m_internalFormat this)
     (m_display this) (m_helper this) r (m_frameworkFormat this)
     (m_yuv_conversion_fbo this) (m_yuv_converter this) (mHndl this).

Definition set_yuv_conversion_fbo (fbo : GLuint) (this : t) : t :=
  mk (m_tex this) (m_blitTex this) (m_eglImage this) (m_blitEGLImage this)
     (m_width this) (m_height this) (m_fbo this) (m_internalFormat this)
     (m_display this) (m_helper this) (m_resizer this) (m_frameworkFormat this)
     fbo (m_yuv_converter this) (mHndl this).

Definition set_yuv_converter (c : ptr) (this : t) : t :=
  mk (m_tex this) (m_blitTex this) (m_eglImage this) (m_blitEGLImage this)
     (m_width this) (m_height this) (m_fbo this) (m_internalFormat this)
     (m_display this) (m_helper this) (m_resizer this) (m_frameworkFormat this)
     (m_yuv_conversion_fbo this) c (mHndl this).

(** The lazily created parts: present or absent. *)
Definition has_blitTex (this : t) : bool := negb (m_blitTex this =? 0).

Definition has_blitEGLImage (this : t) : bool :=
  match m_blitEGLImage this with
  | Some _ => true
  | None => false
  end.

Definition has_yuv_conversion_fbo (this : t) : bool :=
  negb (m_yuv_conversion_fbo this =? 0).

Definition has_resizer (this : t) : bool :=
  match m_resizer this with
  | Some _ => true
  | None => false
  end.

(** The members that no public operation assigns. *)
Definition same_fixed_members (a b : t) : Prop :=
  m_tex a = m_tex b /\ m_eglImage a = m_eglImage b
  /\ m_width a = m_width b /\ m_height a = m_height b
  /\ m_fbo a = m_fbo b /\ m_internalFormat a = m_internalFormat b
  /\ m_display a = m_display b /\ m_helper a = m_helper b
  /\ m_frameworkFormat a = m_frameworkFormat b
  /\ m_yuv_converter a = m_yuv_converter b /\ mHndl a = mHndl b.

(** The copy target is an image together with its texture. *)
Definition blit_target_paired (this : t) : Prop :=
  has_blitEGLImage this = has_blitTex this.

Section Methods.
Context {H D : Type} {HH : Helper H} {PD : Platform D}
  {PF : PixelFormats} {IM : Implementer}.

(** Modelled from the spec: a call into the driver or into a collaborator,
    neither of which is part of the sources; it is recorded in the trace
    and run on the driver state. *)
Definition drv {A} (c : DriverOp) (f : D -> A * D) : M H D A :=
  fun w => Done (f (driver w)).1
             (mkWorld (helpers w) (f (driver w)).2 (images w)
                (DriverCall c :: trace w)).

(** Modelled from the spec: the pixel storage behind the primary texture,
    which the driver keeps. *)
Definition primary_pixels (this : t) : M H D (list Byte.byte) :=
  fun w => match images w !! m_tex this with
           | Some data => Done data w
           | None => Crash ContractViolation
           end.

Definition set_pixels (tex : GLuint) (data : list Byte.byte) : M H D unit :=
  fun w => Done tt (mkWorld (helpers w) (driver w)
                      (<[tex := data]> (images w)) (trace w)).

(** Modelled from the spec: the "internal representation" of the primary
    image, its internal format in the data type that goes with it. *)
Definition internal_repr (this : t) : GLenum * GLenum :=
  (m_internalFormat this, internalType (m_internalFormat this)).

Definition internal_bpp (this : t) : nat :=
  bytesPerPixel (m_internalFormat this) (internalType (m_internalFormat this)).

Definition is_internal (this : t) (p_format p_type : GLenum) : bool :=
  (p_format =? m_internalFormat this)
  && (p_type =? internalType (m_internalFormat this)).

(** Modelled from the spec: the number of bytes of the primary image,
    "sized width x height". *)
Definition image_size (this : t) : nat :=
  (Z.to_nat (m_height this) * (Z.to_nat (m_width this) * internal_bpp this))%nat.

(** The primary image is there and has the size of the buffer. *)
Definition primary_image_ok (this : t) (w : World H D) : Prop :=
  exists data,
    images w !! m_tex this = Some data /\ length data = image_size this.

(** Modelled from the spec: "Rectangle must lie within
    [0,width) x [0,height)". *)
Definition in_bounds (this : t) (x y width height : Z) : bool :=
  (0 <=? x) && (0 <=? y) && (0 <=? width) && (0 <=? height)
  && (x + width <=? m_width this) && (y + height <=? m_height this).

Definition row_stride (this : t) : nat :=
  (Z.to_nat (m_width this) * internal_bpp this)%nat.

Definition rect_offset (this : t) (x y : Z) : nat :=
  (Z.to_nat y * row_stride this + Z.to_nat x * internal_bpp this)%nat.

Definition read_rect (this : t) (data : list Byte.byte) (x y width height : Z)
  : list Byte.byte :=
  read_rows data (row_stride this) (rect_offset this x y)
    (Z.to_nat width * internal_bpp this) (Z.to_nat height).

Definition write_rect (this : t) (data : list Byte.byte) (x y width height : Z)
    (src : list Byte.byte) : list Byte.byte :=
  write_rows data (row_stride this) (rect_offset this x y)
    (Z.to_nat width * internal_bpp this) (Z.to_nat height) src.

(** Modelled from the spec: "converting to format/type if they differ
    from the internal representation", and from format/type on the way
    in. *)
Definition from_internal (this : t) (p_format p_type : GLenum)
    (raw : list Byte.byte) : list Byte.byte :=
  if is_internal this p_format p_type then raw
  else convertPixels (internal_repr this) (p_format, p_type) raw.

Definition to_internal (this : t) (p_format p_type : GLenum)
    (pixels : list Byte.byte) : list Byte.byte :=
  if is_internal this p_format p_type then pixels
  else convertPixels (p_format, p_type) (internal_repr this) pixels.

(** Modelled from the spec: the "failure/null result" of an operation that
    gives up: false for the boolean operations, the null texture name for
    [scale], nothing written for the void operations. *)
Definition failure_of (op : Op) : Ret :=
  match op with
  | OpReadPixels _ _ _ _ _ _ | OpSubUpdate _ _ _ _ _ _ _ | OpReadback => RetVoid
  | OpScale => RetName 0
  | OpDraw | OpPost _ _ _ _ | OpBindToTexture | OpBindToRenderbuffer
  | OpBlitFromCurrentReadBuffer => RetBool false
  end.

(** The usage pattern given with [RecursiveScopedHelperContext]:
<<
    RecursiveScopedHelperContext context(m_helper);
    if (!context.isOk()) { return false; }
    .... do something ....
>>
    with the destructor of [context] running on both ways out. *)
Definition with_context {A} (helper : ptr) (failure : A) (body : M H D A)
  : M H D A :=
  context <- RecursiveScopedHelperContext.ctor helper ;;
  if negb (RecursiveScopedHelperContext.isOk context)
  then RecursiveScopedHelperContext.dtor context ;; ret failure
  else r <- body ;;
       RecursiveScopedHelperContext.dtor context ;;
       ret r.

(** Modelled from the spec: the GPU work of [ColorBuffer::create], defined
    in [ColorBuffer.cpp], which is not part of the sources.  "Allocates the
    primary GPU image and texture sized width x height; returns a live
    instance, or signals creation failure (no instance produced) if the
    underlying image allocation fails"; the internal format is advisory;
    the converter is "present only when frameworkFormat is a YUV variant".
    A fresh image is cleared. *)
Definition create_body (p_display : ptr) (p_width p_height : Z)
    (p_internalFormat : GLenum) (p_frameworkFormat : FrameworkFormat)
    (has_eglimage_texture_2d : bool) (hndl : HandleType) (helper : ptr)
  : M H D (option t) :=
  let fmt := chooseInternalFormat p_internalFormat in
  r <- drv DrvCreateImage
         (createImage p_display p_width p_height fmt has_eglimage_texture_2d) ;;
  match r with
  | None => ret None
  | Some (tex, img) =>
      let cb := set_format (to_GLuint p_width) (to_GLuint p_height)
                  fmt p_frameworkFormat
                  (set_primary (Z.pos tex) (Some img)
                     (ctor p_display hndl helper)) in
      set_pixels (m_tex cb) (replicate (image_size cb) Byte.x00) ;;
      if is_yuv p_frameworkFormat
      then c <- drv DrvNewYUVConverter
                  (newYUVConverter p_width p_height p_frameworkFormat) ;;
           ret (Some (set_yuv_converter (Some c) cb))
      else ret (Some cb)
  end.

(** Modelled from the spec: [ColorBuffer::create].  It "validates positive
    dimensions" and then allocates; the allocation touches GPU state, so it
    runs under a context guard ("no operation may execute without a bound
    rendering context"). *)
Definition create (p_display : ptr) (p_width p_height : Z)
    (p_internalFormat : GLenum) (p_frameworkFormat : FrameworkFormat)
    (has_eglimage_texture_2d : bool) (hndl : HandleType) (helper : ptr)
  : M H D (option t) :=
  if (p_width <=? 0) || (p_height <=? 0) then ret None
  else
    with_context helper None
      (create_body p_display p_width p_height p_internalFormat
         p_frameworkFormat has_eglimage_texture_2d hndl helper).

(** The instance [create] builds, member by member. *)
Definition fresh_instance (p_width p_height : Z) (p_internalFormat : GLenum)
    (p_frameworkFormat : FrameworkFormat) (helper : ptr) (cb : t)
  : Prop :=
  m_width cb = to_GLuint p_width
  /\ m_height cb = to_GLuint p_height
  /\ m_internalFormat cb = chooseInternalFormat p_internalFormat
  /\ m_frameworkFormat cb = p_frameworkFormat
  /\ m_helper cb = helper
  /\ has_blitTex cb = false
  /\ has_blitEGLImage cb = false
  /\ has_yuv_conversion_fbo cb = false
  /\ has_resizer cb = false.

(** Modelled from the spec: the lazily created copy target.  "An
    optional secondary image/texture used when a separate copy target is
    needed for presentation ... created lazily": made by the first
    operation that needs it and kept afterwards. *)
Definition ensure_blit_target (this : t) : M H D t :=
  if has_blitTex this then ret this
  else
    r <- drv DrvCreateBlitImage
           (createBlitImage (m_display this) (m_width this) (m_height this)
              (m_internalFormat this)) ;;
    ret (set_blit (Z.pos r.1) (Some r.2) this).

(** Modelled from the spec: the GPU work of [readPixels].  "Copies the
    requested rectangle of the primary image's current content into
    caller-provided host memory, converting to format/type if they
    differ from the internal representation.  Rectangle must lie within
    [0,width) x [0,height); out-of-range behavior is a contract
    violation." *)
Definition readPixels_body (this : t) (x y width height : Z)
    (p_format p_type : GLenum) : M H D (Ret * t) :=
  if negb (in_bounds this x y width height) then crash ContractViolation
  else
    data <- primary_pixels this ;;
    record_call (DriverCall DrvReadPixels) ;;
    ret (RetPixels (from_internal this p_format p_type
                      (read_rect this data x y width height)), this).

(** Modelled from the spec: the upload of packed internal-format pixels
    into a rectangle of the primary image. *)
Definition upload (this : t) (x y width height : Z) (src : list Byte.byte)
  : M H D unit :=
  data <- primary_pixels this ;;
  record_call (DriverCall DrvTexSubImage) ;;
  set_pixels (m_tex this) (write_rect this data x y width height src).

(** Modelled from the spec: the GPU work of [subUpdate].  "Uploads host
    pixel data into the given sub-rectangle of the primary image,
    converting from format/type.  If frameworkFormat requires YUV
    handling, the data is first decoded into the YUV conversion target
    and then composited into the primary image"; the conversion target
    is "created lazily".  The rectangle is held to the contract stated
    for [readPixels]. *)
Definition subUpdate_body (this : t) (x y width height : Z)
    (p_format p_type : GLenum) (pixels : list Byte.byte) : M H D (Ret * t) :=
  if negb (in_bounds this x y width height) then crash ContractViolation
  else if is_yuv (m_frameworkFormat this) then
    this1 <- (if has_yuv_conversion_fbo this then ret this
              else fbo <- drv DrvGenFramebuffer genFramebuffer ;;
                   ret (set_yuv_conversion_fbo (Z.pos fbo) this)) ;;
    match m_yuv_converter this1 with
    | None => crash NullDereference
    | Some conv =>
        rgb <- drv DrvYUVConvert
                 (yuvConvert conv (m_frameworkFormat this1) width height pixels) ;;
        upload this1 x y width height rgb ;;
        ret (RetVoid, this1)
    end
  else
    upload this x y width height (to_internal this p_format p_type pixels) ;;
    ret (RetVoid, this).

(** Modelled from the spec: the GPU work of [draw].  "Blits the primary
    image into the currently bound destination ... Returns
    success/failure"; the blit is done by the drawing helper obtained
    from the context capability. *)
Definition draw_body (this : t) : M H D (Ret * t) :=
  td <- call_getTextureDraw (m_helper this) ;;
  ok <- drv DrvDraw (textureDraw td (m_tex this)) ;;
  ret (RetBool ok, this).

(** Modelled from the spec: the GPU work of [scale].  "Lazily creates
    the resizer collaborator on first use, asks it to produce a version
    of the primary texture resized to the caller's current viewport, and
    returns the handle of the resulting texture." *)
Definition scale_body (this : t) : M H D (Ret * t) :=
  this1 <- (match m_resizer this with
            | Some _ => ret this
            | None =>
                r <- drv DrvNewResizer
                       (newTextureResize (m_width this) (m_height this)) ;;
                ret (set_resizer (Some r) this)
            end) ;;
  match m_resizer this1 with
  | None => crash NullDereference
  | Some r =>
      tex <- drv DrvResize
               (fun d => resize r (m_tex this1) (viewport d).1 (viewport d).2 d) ;;
      ret (RetName tex, this1)
  end.

(** Modelled from the spec: the GPU work of [post].  "Presents the given
    texture to the display surface, applying a clockwise rotation and a
    translation offset.  Returns success/failure." *)
Definition post_body (this : t) (tex : GLuint) (rotation dx dy : float)
  : M H D (Ret * t) :=
  td <- call_getTextureDraw (m_helper this) ;;
  ok <- drv DrvPost (texturePost td tex rotation dx dy) ;;
  ret (RetBool ok, this).

(** Modelled from the spec: the GPU work of [bindToTexture] and
    [bindToRenderbuffer].  "Attaches the current context's active
    texture/renderbuffer target to this buffer's EGLImage ... Returns
    false if the underlying bind call fails." *)
Definition bindToTexture_body (this : t) : M H D (Ret * t) :=
  ok <- drv DrvBindTexture (imageTargetTexture (m_eglImage this)) ;;
  ret (RetBool ok, this).

Definition bindToRenderbuffer_body (this : t) : M H D (Ret * t) :=
  ok <- drv DrvBindRenderbuffer (imageTargetRenderbuffer (m_eglImage this)) ;;
  ret (RetBool ok, this).

(** Modelled from the spec: the GPU work of
    [blitFromCurrentReadBuffer].  "Copies pixel content from whatever
    read surface is current in the bound context into this buffer's
    primary image"; without a read surface of the buffer's size the
    operation reports failure. *)
Definition blitFromCurrentReadBuffer_body (this : t) : M H D (Ret * t) :=
  r <- drv DrvCopyReadBuffer currentReadSurface ;;
  match r with
  | None => ret (RetBool false, this)
  | Some src =>
      data <- primary_pixels this ;;
      if (length src =? length data)%nat
      then set_pixels (m_tex this) src ;; ret (RetBool true, this)
      else ret (RetBool false, this)
  end.

(** Modelled from the spec: the GPU work of [readback].  "Reads the
    entire buffer as 32-bit RGBA into a caller-supplied buffer"; there
    is no partial-rectangle variant. *)
Definition readback_body (this : t) : M H D (Ret * t) :=
  data <- primary_pixels this ;;
  record_call (DriverCall DrvReadPixels) ;;
  ret (RetPixels (from_internal this GL_RGBA GL_UNSIGNED_BYTE
                    (read_rect this data 0 0 (m_width this) (m_height this))),
       this).

Definition body (op : Op) (this : t) : M H D (Ret * t) :=
  match op with
  | OpReadPixels x y width height p_format p_type =>
      readPixels_body this x y width height p_format p_type
  | OpSubUpdate x y width height p_format p_type pixels =>
      subUpdate_body this x y width height p_format p_type pixels
  | OpDraw => draw_body this
  | OpScale => scale_body this
  | OpPost tex rotation dx dy => post_body this tex rotation dx dy
  | OpBindToTexture => bindToTexture_body this
  | OpBindToRenderbuffer => bindToRenderbuffer_body this
  | OpBlitFromCurrentReadBuffer => blitFromCurrentReadBuffer_body this
  | OpReadback => readback_body this
  end.

(** Modelled from the spec: a public operation.  "All begin by acquiring
    a Scoped Context Guard and abort with a failure result if the guard
    is not ok"; past the guard the operation makes sure the copy target
    exists if it needs one, does its GPU work, and the guard is released
    on the way out. *)
Definition run (op : Op) (this : t) : M H D (Ret * t) :=
  with_context (m_helper this) (failure_of op, this)
    (this1 <- (if usesBlitTarget op then ensure_blit_target this
               else ret this) ;;
     body op this1).

(** The public member functions declared in the header, each one [run]
    at its operation. *)
Definition readPixels (this : t) (x y width height : Z)
    (p_format p_type : GLenum) : M H D (Ret * t) :=
  run (OpReadPixels x y width height p_format p_type) this.

Definition subUpdate (this : t) (x y width height : Z)
    (p_format p_type : GLenum) (pixels : list Byte.byte) : M H D (Ret * t) :=
  run (OpSubUpdate x y width height p_format p_type pixels) this.

Definition draw (this : t) : M H D (Ret * t) := run OpDraw this.
Definition scale (this : t) : M H D (Ret * t) := run OpScale this.
Definition post (this : t) (tex : GLuint) (rotation dx dy : float)
  : M H D (Ret * t) := run (OpPost tex rotation dx dy) this.
Definition bindToTexture (this : t) : M H D (Ret * t) :=
  run OpBindToTexture this.
Definition bindToRenderbuffer (this : t) : M H D (Ret * t) :=
  run OpBindToRenderbuffer this.
Definition blitFromCurrentReadBuffer (this : t) : M H D (Ret * t) :=
  run OpBlitFromCurrentReadBuffer this.
Definition readback (this : t) : M H D (Ret * t) := run OpReadback this.

(** A sequence of public operations on one instance, in call order. *)
Fixpoint run_all (ops : list Op) (this : t) : M H D (list Ret * t) :=
  match ops with
  | [] => ret ([], this)
  | op :: rest =>
      r <- run op this ;;
      rs <- run_all rest r.2 ;;
      ret (r.1 :: rs.1, rs.2)
  end.

(** *** Observations on runs

    What a test double can see of a run: whether the guard of the next
    operation will get its context, the world in which the GPU work of an
    operation starts and the world the guard leaves behind, whether some
    operation of a given kind got past its guard, and how often a given
    driver or collaborator call was made. *)

(** The guard built on [helper] in [w] will be ok: a context is already
    bound, or the setup succeeds. *)
Definition acquires (helper : ptr) (w : World H D) : bool :=
  match helper with
  | Some l => match helpers w !! l with
              | Some h => isBound h || (setupContext h).1
              | None => false
              end
  | None => false
  end.

(** The world after the constructor of the guard. *)
Definition enter (l : loc) (h : H) (w : World H D) : World H D :=
  if isBound h then log_event (HelperCall l CallIsBound) w
  else put_helper l (setupContext h).2
         (log_event (HelperCall l CallSetupContext)
            (log_event (HelperCall l CallIsBound) w)).

(** The world after the destructor of a guard that owes a teardown or
    not. *)
Definition leave (l : loc) (owed : bool) (w : World H D) : World H D :=
  if owed then
    match helpers w !! l with
    | Some h => put_helper l (teardownContext h)
                  (log_event (HelperCall l CallTeardownContext) w)
    | None => w
    end
  else w.

(** Some operation of the sequence selected by [needs] got past its
    guard. *)
Fixpoint some_executed (needs : Op -> bool) (ops : list Op) (this : t)
    (w : World H D) : bool :=
  match ops with
  | [] => false
  | op :: rest =>
      match run op this w with
      | Done r w1 =>
          (needs op && acquires (m_helper this) w)
          || some_executed needs rest r.2 w1
      | Crash _ => false
      end
  end.

(** The operations that need each lazily created part. *)
Definition needs_resizer (op : Op) : bool :=
  match op with OpScale => true | _ => false end.

Definition needs_yuv_target (this : t) (op : Op) : bool :=
  match op with
  | OpSubUpdate _ _ _ _ _ _ _ => is_yuv (m_frameworkFormat this)
  | _ => false
  end.
End Methods.

End ColorBuffer.

Definition DriverOp_eqb (a b : DriverOp) : bool :=
  match a, b with
  | DrvCreateImage, DrvCreateImage
  | DrvCreateBlitImage, DrvCreateBlitImage
  | DrvGenFramebuffer, DrvGenFramebuffer
  | DrvTexSubImage, DrvTexSubImage
  | DrvReadPixels, DrvReadPixels
  | DrvDraw, DrvDraw
  | DrvPost, DrvPost
  | DrvBindTexture, DrvBindTexture
  | DrvBindRenderbuffer, DrvBindRenderbuffer
  | DrvCopyReadBuffer, DrvCopyReadBuffer
  | DrvNewResizer, DrvNewResizer
  | DrvResize, DrvResize
  | DrvNewYUVConverter, DrvNewYUVConverter
  | DrvYUVConvert, DrvYUVConvert => true
  | _, _ => false
  end.

(** Number of calls of the driver operation [c] recorded in a trace. *)
Definition is_driver_op (c : DriverOp) (e : Event) : bool :=
  match e with
  | HelperCall _ _ => false
  | DriverCall c' => DriverOp_eqb c c'
  end.

Definition driver_op_calls (c : DriverOp) (tr : list Event) : nat :=
  length (List.filter (is_driver_op c) tr).

(** ** Test doubles

    A context provider that is bound or not and whose setup succeeds or
    not, and a driver whose image allocation succeeds or not; they give the
    concrete inputs at which the theorems below are exercised. *)

Module TestDouble.

Record FakeHelper := mkFake {
  bound : bool;
  setup_succeeds : bool
}.

#[export] Instance fake_helper : Helper FakeHelper := {
  setupContext h :=
    (setup_succeeds h,
     if setup_succeeds h then mkFake true (setup_succeeds h) else h);
  teardownContext h := mkFake false (setup_succeeds h);
  getTextureDraw _ := Some 7%positive;
  isBound h := bound h
}.

(** The driver state: whether allocations succeed, and the next free
    name. *)
Record FakeDriver := mkDriver {
  alloc_ok : bool;
  next_name : positive
}.

Definition fresh (d : FakeDriver) : positive * FakeDriver :=
  (next_name d, mkDriver (alloc_ok d) (Pos.succ (next_name d))).

#[export] Instance fake_platform : Platform FakeDriver := {
  createImage _ _ _ _ _ d :=
    if alloc_ok d then (Some (next_name d, next_name d), (fresh d).2)
    else (None, d);
  createBlitImage _ _ _ _ d := ((next_name d, next_name d), (fresh d).2);
  genFramebuffer := fresh;
  textureDraw _ _ d := (true, d);
  texturePost _ _ _ _ _ d := (true, d);
  imageTargetTexture _ d := (true, d);
  imageTargetRenderbuffer _ d := (true, d);
  currentReadSurface d := (None, d);
  viewport _ := (2, 2);
  newTextureResize _ _ := fresh;
  resize _ tex _ _ d := (tex, d);
  newYUVConverter _ _ _ := fresh;
  yuvConvert _ _ _ _ bytes d := (bytes, d)
}.

(** RGBA (0x1908) stored as unsigned bytes (0x1401), four bytes a pixel. *)
#[export] Instance fake_formats : PixelFormats := {
  GL_RGBA := 6408;
  GL_UNSIGNED_BYTE := 5121;
  bytesPerPixel _ _ := 4%nat;
  internalType _ := 5121;
  convertPixels _ _ bytes := bytes
}.

#[export] Instance fake_implementer : Implementer := {
  chooseInternalFormat fmt := fmt;
  usesBlitTarget op :=
    match op with OpBlitFromCurrentReadBuffer => true | _ => false end
}.

Definition helper_at : loc := 1%positive.

(** A world holding one helper. *)
Definition world (h : FakeHelper) (ok : bool) : World FakeHelper FakeDriver :=
  mkWorld {[ helper_at := h ]} (mkDriver ok 1) ∅ [].

(** A 4 x 4 RGBA buffer created through a helper that is not bound and
    whose setup succeeds, and the world [create] leaves. *)
Definition created : Outcome (World FakeHelper FakeDriver) (option ColorBuffer.t) :=
  ColorBuffer.create NULL 4 4 6408 FRAMEWORK_FORMAT_GL_COMPATIBLE true 9
    (Some helper_at) (world (mkFake false true) true).

Definition buffer : ColorBuffer.t :=
  match created with
  | Done (Some cb) _ => cb
  | _ => ColorBuffer.ctor NULL 0 NULL
  end.

Definition world_of_buffer : World FakeHelper FakeDriver :=
  match created with
  | Done _ w => w
  | Crash _ => world (mkFake false true) true
  end.

(** Sixteen bytes: a 2 x 2 rectangle of RGBA pixels. *)
Definition red_2x2 : list Byte.byte :=
  concat (replicate 4 [Byte.xff; Byte.x00; Byte.x00; Byte.xff]).

End TestDouble.

(** * Properties of the scoped guard *)

Import RecursiveScopedHelperContext.

Section VirtualCallFacts.
Context {H D : Type} {HH : Helper H}.
Implicit Types (w : World H D) (l : loc) (h : H).

Lemma call_isBound_live w l h :
  helpers w !! l = Some h ->
  call_isBound (Some l) w
  = Done (isBound h) (log_event (HelperCall l CallIsBound) w).
Proof.
  intros Hl. unfold call_isBound, bind, deref. rewrite Hl. reflexivity.
Qed.

Lemma call_setupContext_live w l h :
  helpers w !! l = Some h ->
  call_setupContext (Some l) w
  = Done (setupContext h).1
      (put_helper l (setupContext h).2
         (log_event (HelperCall l CallSetupContext) w)).
Proof.
  intros Hl. unfold call_setupContext, bind, deref. rewrite Hl. reflexivity.
Qed.

Lemma call_teardownContext_live w l h :
  helpers w !! l = Some h ->
  call_teardownContext (Some l) w
  = Done tt
      (put_helper l (teardownContext h)
         (log_event (HelperCall l CallTeardownContext) w)).
Proof.
  intros Hl. unfold call_teardownContext, bind, deref. rewrite Hl. reflexivity.
Qed.

Lemma calls_log_event m e w :
  calls m (trace (log_event e w))
  = ((if is_call m e then 1 else 0) + calls m (trace w))%nat.
Proof.
  unfold calls, log_event; simpl. destruct (is_call m e); reflexivity.
Qed.

Lemma calls_put_helper m l h w :
  calls m (trace (put_helper l h w)) = calls m (trace w).
Proof. reflexivity. Qed.
End VirtualCallFacts.

Section GuardFacts.
Context {H D : Type} {HH : Helper H}.
Implicit Types (w : World H D) (l : loc) (h : H) (g : t).

(** The three ways through the constructor. *)
Lemma ctor_bound w l h :
  helpers w !! l = Some h -> isBound h = true ->
  ctor (Some l) w
  = Done (mk (Some l) false) (log_event (HelperCall l CallIsBound) w).
Proof.
  intros Hl Hb. unfold ctor, bind.
  rewrite (call_isBound_live _ _ _ Hl), Hb. reflexivity.
Qed.

Lemma ctor_setup_failed w l h :
  helpers w !! l = Some h -> isBound h = false -> (setupContext h).1 = false ->
  ctor (Some l) w
  = Done (mk NULL false)
      (put_helper l (setupContext h).2
         (log_event (HelperCall l CallSetupContext)
            (log_event (HelperCall l CallIsBound) w))).
Proof.
  intros Hl Hb Hs. unfold ctor, bind.
  rewrite (call_isBound_live _ _ _ Hl), Hb.
  rewrite (call_setupContext_live _ l h) by exact Hl.
  rewrite Hs. reflexivity.
Qed.

Lemma ctor_setup_done w l h :
  helpers w !! l = Some h -> isBound h = false -> (setupContext h).1 = true ->
  ctor (Some l) w
  = Done (mk (Some l) true)
      (put_helper l (setupContext h).2
         (log_event (HelperCall l CallSetupContext)
            (log_event (HelperCall l CallIsBound) w))).
Proof.
  intros Hl Hb Hs. unfold ctor, bind.
  rewrite (call_isBound_live _ _ _ Hl), Hb.
  rewrite (call_setupContext_live _ l h) by exact Hl.
  rewrite Hs. reflexivity.
Qed.

(** The two ways through [release]. *)
Lemma release_nothing_owed g w :
  mNeedUnbind g = false -> release g w = Done (mk NULL false) w.
Proof.
  intros Hn. unfold release, bind. rewrite Hn. unfold ret. rewrite Hn.
  reflexivity.
Qed.

Lemma release_owed g w l h :
  mNeedUnbind g = true -> mHelper g = Some l -> helpers w !! l = Some h ->
  release g w
  = Done (mk NULL false)
      (put_helper l (teardownContext h)
         (log_event (HelperCall l CallTeardownContext) w)).
Proof.
  intros Hn Hp Hl. unfold release, bind. rewrite Hn, Hp.
  rewrite (call_teardownContext_live _ _ _ Hl). reflexivity.
Qed.

(** Once released, further releases and the destructor change nothing. *)
Lemma release_times_released n w :
  release_times n (mk NULL false) w = Done (mk NULL false) w.
Proof.
  induction n as [|n IH]; [reflexivity|].
  simpl. unfold bind. rewrite release_nothing_owed by reflexivity. exact IH.
Qed.

Lemma dtor_nothing_owed g w : mNeedUnbind g = false -> dtor g w = Done tt w.
Proof.
  intros Hn. unfold dtor, bind. rewrite release_nothing_owed by exact Hn.
  reflexivity.
Qed.

Lemma release_then_destroy_nothing_owed n g w :
  mNeedUnbind g = false -> release_then_destroy n g w = Done tt w.
Proof.
  intros Hn. unfold release_then_destroy, bind.
  destruct n as [|n]; simpl.
  - apply dtor_nothing_owed, Hn.
  - unfold bind. rewrite release_nothing_owed by exact Hn.
    rewrite release_times_released. apply dtor_nothing_owed. reflexivity.
Qed.

(** With a teardown owed, it happens at the first release, or at the
    destructor when there is none. *)
Lemma release_then_destroy_owed n g w l h :
  mNeedUnbind g = true -> mHelper g = Some l -> helpers w !! l = Some h ->
  release_then_destroy n g w
  = Done tt
      (put_helper l (teardownContext h)
         (log_event (HelperCall l CallTeardownContext) w)).
Proof.
  intros Hn Hp Hl. unfold release_then_destroy, bind.
  destruct n as [|n]; simpl.
  - unfold dtor, bind. rewrite (release_owed _ _ _ _ Hn Hp Hl). reflexivity.
  - unfold bind. rewrite (release_owed _ _ _ _ Hn Hp Hl).
    rewrite release_times_released. apply dtor_nothing_owed. reflexivity.
Qed.

Lemma ctor_null w : ctor NULL w = Crash NullDereference.
Proof. reflexivity. Qed.

Lemma ctor_owes_with_helper p w g w1 :
  ctor p w = Done g w1 -> owes_with_helper g.
Proof.
  destruct p as [l|]; [|discriminate].
  unfold ctor, bind.
  destruct (call_isBound (Some l) w) as [b wb|]; [|discriminate].
  destruct b.
  - intros [= <- <-] Hn. discriminate.
  - destruct (call_setupContext (Some l) wb) as [ok ws|]; [|discriminate].
    destruct ok; simpl; intros [= <- <-] Hn; discriminate.
Qed.

(** [release] faults on [NULL] only if a teardown is owed without a
    helper, and leaves a guard that owes nothing. *)
Lemma release_no_null_fault g w :
  owes_with_helper g -> release g w <> Crash NullDereference.
Proof.
  intros Hinv. unfold release, bind.
  destruct (mNeedUnbind g) eqn:Hn; [|discriminate].
  destruct (mHelper g) as [l|] eqn:Hp; [|exfalso; exact (Hinv Hn Hp)].
  unfold call_teardownContext, bind, deref.
  destruct (helpers w !! l); discriminate.
Qed.

Lemma release_result g w g1 w1 :
  release g w = Done g1 w1 -> g1 = mk NULL false.
Proof.
  unfold release, bind.
  destruct (mNeedUnbind g) eqn:Hn.
  - destruct (call_teardownContext (mHelper g) w); [|discriminate].
    intros [= <- <-]. reflexivity.
  - unfold ret. rewrite Hn. intros [= <- <-]. reflexivity.
Qed.

Lemma release_then_destroy_no_null_fault n g w :
  owes_with_helper g -> release_then_destroy n g w <> Crash NullDereference.
Proof.
  intros Hinv. unfold release_then_destroy, bind.
  destruct n as [|n]; simpl.
  - unfold dtor, bind. pose proof (release_no_null_fault g w Hinv) as Hr.
    destruct (release g w); [discriminate|congruence].
  - unfold bind. pose proof (release_no_null_fault g w Hinv) as Hr.
    destruct (release g w) as [g1 w1|f] eqn:E; [|congruence].
    apply release_result in E. subst g1.
    rewrite release_times_released, dtor_nothing_owed by reflexivity.
    discriminate.
Qed.
End GuardFacts.

Section GuardClaims.
Context {H D : Type} {HH : Helper H}.
Implicit Types (w : World H D) (l : loc) (h : H) (g : t).

Lemma release_times_nothing_owed n g w :
  mNeedUnbind g = false -> exists g1, release_times n g w = Done g1 w.
Proof.
  intros Hn. destruct n as [|n]; simpl.
  - exists g. reflexivity.
  - exists (mk NULL false). unfold bind.
    rewrite release_nothing_owed by exact Hn. apply release_times_released.
Qed.

Lemma release_times_no_null_fault n g w :
  owes_with_helper g -> release_times n g w <> Crash NullDereference.
Proof.
  intros Hinv. destruct n as [|n]; simpl; [discriminate|].
  unfold bind. pose proof (release_no_null_fault g w Hinv) as Hr.
  destruct (release g w) as [g1 w1|f] eqn:E; [|congruence].
  apply release_result in E. subst g1.
  rewrite release_times_released. discriminate.
Qed.

(** C1.  When [isBound()] is true at construction, the constructor makes
    no [setupContext()] call (its only call is [isBound()]), [isOk()] is
    true afterwards, and any number of [release()] calls, with or without
    the destructor after them, makes no [teardownContext()] call: the
    world is left exactly as it was. *)
Theorem guard_on_bound_context_is_passthrough w l h :
  helpers w !! l = Some h ->
  isBound h = true ->
  exists g w1,
    ctor (Some l) w = Done g w1
    /\ trace w1 = HelperCall l CallIsBound :: trace w
    /\ calls CallSetupContext (trace w1) = calls CallSetupContext (trace w)
    /\ isOk g = true
    /\ (forall n w2, exists g2, release_times n g w2 = Done g2 w2)
    /\ (forall n w2, release_then_destroy n g w2 = Done tt w2)
    /\ (forall n w2 w3,
          release_then_destroy n g w2 = Done tt w3 ->
          calls CallTeardownContext (trace w3)
          = calls CallTeardownContext (trace w2)).
Proof.
  intros Hl Hb. eexists _, _.
  split; [exact (ctor_bound _ _ _ Hl Hb)|].
  split; [reflexivity|].
  split; [rewrite calls_log_event; reflexivity|].
  split; [reflexivity|].
  split; [intros n w2; apply release_times_nothing_owed; reflexivity|].
  split; [intros n w2; apply release_then_destroy_nothing_owed; reflexivity|].
  intros n w2 w3.
  rewrite release_then_destroy_nothing_owed by reflexivity.
  intros [= <-]. reflexivity.
Qed.

(** C2.  When [isBound()] is false and [setupContext()] returns false,
    [isOk()] is false and the guard never calls [teardownContext()]:
    not in the constructor, and not in any number of [release()] calls
    followed by the destructor, which leave the world as it was. *)
Theorem guard_failed_setup_owes_no_teardown w l h :
  helpers w !! l = Some h ->
  isBound h = false ->
  (setupContext h).1 = false ->
  exists g w1,
    ctor (Some l) w = Done g w1
    /\ isOk g = false
    /\ calls CallTeardownContext (trace w1)
       = calls CallTeardownContext (trace w)
    /\ (forall n w2, exists g2, release_times n g w2 = Done g2 w2)
    /\ (forall n w2, release_then_destroy n g w2 = Done tt w2)
    /\ (forall n w2 w3,
          release_then_destroy n g w2 = Done tt w3 ->
          calls CallTeardownContext (trace w3)
          = calls CallTeardownContext (trace w2)).
Proof.
  intros Hl Hb Hs. eexists _, _.
  split; [exact (ctor_setup_failed _ _ _ Hl Hb Hs)|].
  split; [reflexivity|].
  split; [rewrite calls_put_helper, !calls_log_event; reflexivity|].
  split; [intros n w2; apply release_times_nothing_owed; reflexivity|].
  split; [intros n w2; apply release_then_destroy_nothing_owed; reflexivity|].
  intros n w2 w3.
  rewrite release_then_destroy_nothing_owed by reflexivity.
  intros [= <-]. reflexivity.
Qed.

(** C3.  Release is idempotent.  For a guard built on a live helper, any
    number [n] of [release()] calls followed by the destructor calls
    [teardownContext()] once if the constructor made a successful
    [setupContext()] call (the context was not bound and the setup
    returned true) and not at all otherwise; and a [release()] after a
    [release()] changes nothing, so it makes no helper call. *)
Theorem release_is_idempotent w l h :
  helpers w !! l = Some h ->
  exists g w1,
    ctor (Some l) w = Done g w1
    /\ calls CallSetupContext (trace w1)
       = (calls CallSetupContext (trace w) + (if isBound h then 0 else 1))%nat
    /\ (forall n w2,
          is_Some (helpers w2 !! l) ->
          exists w3,
            release_then_destroy n g w2 = Done tt w3
            /\ calls CallTeardownContext (trace w3)
               = (calls CallTeardownContext (trace w2)
                  + (if negb (isBound h) && (setupContext h).1 then 1 else 0))%nat)
    /\ (forall w2 g1 w3,
          release g w2 = Done g1 w3 -> release g1 w3 = Done g1 w3).
Proof.
  intros Hl.
  assert (Hsecond : forall g w2 g1 w3,
             release g w2 = Done g1 w3 -> release g1 w3 = Done g1 w3).
  { intros g w2 g1 w3 E. apply release_result in E. subst g1.
    apply release_nothing_owed. reflexivity. }
  destruct (isBound h) eqn:Hb; [|destruct (setupContext h).1 eqn:Hs].
  - eexists _, _. split; [exact (ctor_bound _ _ _ Hl Hb)|].
    split; [rewrite calls_log_event; simpl; lia|].
    split; [|apply Hsecond].
    intros n w2 _. exists w2.
    rewrite release_then_destroy_nothing_owed by reflexivity.
    split; [reflexivity|simpl; lia].
  - eexists _, _. split; [exact (ctor_setup_done _ _ _ Hl Hb Hs)|].
    split; [rewrite calls_put_helper, !calls_log_event; simpl; lia|].
    split; [|apply Hsecond].
    intros n w2 [h2 Hl2]. eexists.
    split; [apply (release_then_destroy_owed n _ w2 l h2); [reflexivity..|exact Hl2]|].
    rewrite calls_put_helper, calls_log_event. simpl. lia.
  - eexists _, _. split; [exact (ctor_setup_failed _ _ _ Hl Hb Hs)|].
    split; [rewrite calls_put_helper, !calls_log_event; simpl; lia|].
    split; [|apply Hsecond].
    intros n w2 _. exists w2.
    rewrite release_then_destroy_nothing_owed by reflexivity.
    split; [reflexivity|simpl; lia].
Qed.

(** C9.  After any call of [release()] the guard is not ok.  The call
    returns whenever the helper of an owed teardown is live, and the
    guard it leaves has [isOk()] false, whatever [isOk()] was before:
    [release()] always clears [mHelper]. *)
Theorem released_guard_is_not_ok g w :
  (mNeedUnbind g = true ->
   exists l, mHelper g = Some l /\ is_Some (helpers w !! l)) ->
  exists g1 w1, release g w = Done g1 w1 /\ isOk g1 = false.
Proof.
  intros Hlive. destruct (mNeedUnbind g) eqn:Hn.
  - destruct (Hlive eq_refl) as (l & Hp & h & Hl).
    eexists _, _. split; [exact (release_owed _ _ _ _ Hn Hp Hl)|reflexivity].
  - eexists _, _. split; [exact (release_nothing_owed _ _ Hn)|reflexivity].
Qed.

(** C10.  The constructor dereferences its argument unconditionally: on
    [NULL] it faults at once.  On a non-null pointer, neither the
    constructor nor any later [release()] or the destructor dereferences
    [NULL] ([isOk()] dereferences nothing): [release()] makes its helper
    call only when a teardown is owed, and then [mHelper] is still the
    constructor's argument. *)
Theorem guard_needs_non_null_helper :
  (forall w, ctor NULL w = Crash NullDereference)
  /\ (forall l w, ctor (Some l) w <> Crash NullDereference)
  /\ (forall l w g w1,
        ctor (Some l) w = Done g w1 ->
        forall n w2,
          release_times n g w2 <> Crash NullDereference
          /\ release_then_destroy n g w2 <> Crash NullDereference).
Proof.
  split; [exact ctor_null|]. split.
  - intros l w. destruct (helpers w !! l) as [h|] eqn:Hl.
    + destruct (isBound h) eqn:Hb; [|destruct (setupContext h).1 eqn:Hs].
      * rewrite (ctor_bound _ _ _ Hl Hb). discriminate.
      * rewrite (ctor_setup_done _ _ _ Hl Hb Hs). discriminate.
      * rewrite (ctor_setup_failed _ _ _ Hl Hb Hs). discriminate.
    + unfold ctor, bind, call_isBound, bind, deref. rewrite Hl. discriminate.
  - intros l w g w1 E n w2. apply ctor_owes_with_helper in E.
    split; [apply release_times_no_null_fault|
            apply release_then_destroy_no_null_fault]; exact E.
Qed.
End GuardClaims.

(** ** The guard theorems at the test doubles *)

Import TestDouble.

(** Nested guards on a helper that is not bound and whose setup succeeds:
    the outer guard sets the context up, the inner one finds it bound and
    does nothing, and only the outer one tears it down. *)
Example nested_guards_on_test_helper :
  (outer <- ctor (Some helper_at) ;;
   inner <- ctor (Some helper_at) ;;
   dtor inner ;;
   dtor outer ;;
   ret (isOk outer, mNeedUnbind outer, isOk inner, mNeedUnbind inner))
    (world (mkFake false true) true)
  = Done (true, true, true, false)
      (mkWorld {[ helper_at := mkFake false true ]} (mkDriver true 1) ∅
         [HelperCall helper_at CallTeardownContext;
          HelperCall helper_at CallIsBound;
          HelperCall helper_at CallSetupContext;
          HelperCall helper_at CallIsBound]).
Proof. vm_compute. reflexivity. Qed.

(** C1 on a helper that is already bound. *)
Lemma guard_on_bound_context_is_passthrough_witness :
  let h := mkFake true false in
  let w := world h true in
  helpers w !! helper_at = Some h
  /\ isBound h = true
  /\ exists g w1,
       ctor (Some helper_at) w = Done g w1
       /\ trace w1 = HelperCall helper_at CallIsBound :: trace w
       /\ calls CallSetupContext (trace w1) = calls CallSetupContext (trace w)
       /\ isOk g = true
       /\ (forall n (w2 : World FakeHelper FakeDriver), exists g2, release_times n g w2 = Done g2 w2)
       /\ (forall n (w2 : World FakeHelper FakeDriver), release_then_destroy n g w2 = Done tt w2)
       /\ (forall n (w2 : World FakeHelper FakeDriver) w3,
             release_then_destroy n g w2 = Done tt w3 ->
             calls CallTeardownContext (trace w3)
             = calls CallTeardownContext (trace w2)).
Proof.
  cbv zeta. split; [reflexivity|]. split; [reflexivity|].
  apply (guard_on_bound_context_is_passthrough
           (world (mkFake true false) true) helper_at (mkFake true false));
    reflexivity.
Defined.

(** C2 on a helper that is not bound and whose setup fails. *)
Lemma guard_failed_setup_owes_no_teardown_witness :
  let h := mkFake false false in
  let w := world h true in
  helpers w !! helper_at = Some h
  /\ isBound h = false
  /\ (setupContext h).1 = false
  /\ exists g w1,
       ctor (Some helper_at) w = Done g w1
       /\ isOk g = false
       /\ calls CallTeardownContext (trace w1)
          = calls CallTeardownContext (trace w)
       /\ (forall n (w2 : World FakeHelper FakeDriver), exists g2, release_times n g w2 = Done g2 w2)
       /\ (forall n (w2 : World FakeHelper FakeDriver), release_then_destroy n g w2 = Done tt w2)
       /\ (forall n (w2 : World FakeHelper FakeDriver) w3,
             release_then_destroy n g w2 = Done tt w3 ->
             calls CallTeardownContext (trace w3)
             = calls CallTeardownContext (trace w2)).
Proof.
  cbv zeta. split; [reflexivity|]. split; [reflexivity|]. split; [reflexivity|].
  apply (guard_failed_setup_owes_no_teardown
           (world (mkFake false false) true) helper_at (mkFake false false));
    reflexivity.
Defined.

(** C3 on a helper that is not bound and whose setup succeeds: one
    teardown, however many releases. *)
Lemma release_is_idempotent_witness :
  let h := mkFake false true in
  let w := world h true in
  helpers w !! helper_at = Some h
  /\ exists g w1,
       ctor (Some helper_at) w = Done g w1
       /\ calls CallSetupContext (trace w1)
          = (calls CallSetupContext (trace w) + 1)%nat
       /\ (forall n (w2 : World FakeHelper FakeDriver),
             is_Some (helpers w2 !! helper_at) ->
             exists w3,
               release_then_destroy n g w2 = Done tt w3
               /\ calls CallTeardownContext (trace w3)
                  = (calls CallTeardownContext (trace w2) + 1)%nat)
       /\ (forall (w2 : World FakeHelper FakeDriver) g1 w3,
             release g w2 = Done g1 w3 -> release g1 w3 = Done g1 w3).
Proof.
  cbv zeta. split; [reflexivity|].
  exact (release_is_idempotent
           (world (mkFake false true) true) helper_at (mkFake false true)
           eq_refl).
Defined.

(** C9 on a passthrough guard, which is ok before the release, in a world
    with no helper at all. *)
Lemma released_guard_is_not_ok_witness :
  let g := mk (Some helper_at) false in
  let w : World FakeHelper FakeDriver := mkWorld ∅ (mkDriver true 1) ∅ [] in
  isOk g = true
  /\ (mNeedUnbind g = true ->
      exists l, mHelper g = Some l /\ is_Some (helpers w !! l))
  /\ exists g1 w1, release g w = Done g1 w1 /\ isOk g1 = false.
Proof.
  cbv zeta. split; [reflexivity|].
  split; [intros Hn; discriminate Hn|].
  apply (released_guard_is_not_ok (mk (Some helper_at) false)).
  intros Hn; discriminate Hn.
Defined.

(** C10 on a guard whose setup succeeded and whose helper has since been
    destroyed: the teardown faults, but not on [NULL]. *)
Lemma guard_needs_non_null_helper_witness :
  let w := world (mkFake false true) true in
  let w2 : World FakeHelper FakeDriver := mkWorld ∅ (mkDriver true 1) ∅ [] in
  exists g w1,
    ctor (Some helper_at) w = Done g w1
    /\ release_then_destroy 2 g w2 = Crash DanglingPointer
    /\ release_times 2 g w2 <> Crash NullDereference
    /\ release_then_destroy 2 g w2 <> Crash NullDereference.
Proof.
  cbv zeta. eexists _, _. split; [reflexivity|]. split; [reflexivity|].
  eapply (proj2 (proj2 (@guard_needs_non_null_helper FakeHelper FakeDriver _))
            helper_at (world (mkFake false true) true)).
  reflexivity.
Defined.

(** * Properties of the color buffer *)

Section ContextFacts.
Context {H D : Type} {HH : Helper H}.
Implicit Types (w : World H D) (l : loc) (h : H).

(** The guard refuses: the operation gives its failure result and the body
    never runs. *)
Lemma with_context_refused {A} w l h (failure : A) (body : M H D A) :
  helpers w !! l = Some h ->
  isBound h = false ->
  (setupContext h).1 = false ->
  ColorBuffer.with_context (Some l) failure body w
  = Done failure (ColorBuffer.enter l h w).
Proof.
  intros Hl Hb Hs. unfold ColorBuffer.with_context, bind.
  rewrite (ctor_setup_failed _ _ _ Hl Hb Hs). unfold isOk; cbn [mHelper negb NULL]; cbv beta.
  rewrite dtor_nothing_owed by reflexivity.
  unfold ColorBuffer.enter. rewrite Hb. reflexivity.
Qed.

(** The guard is ok: the body runs in the world the constructor left, and
    the destructor runs after it. *)
Lemma with_context_acquired {A} w l h (failure : A) (body : M H D A) r w_out :
  helpers w !! l = Some h ->
  isBound h || (setupContext h).1 = true ->
  body (ColorBuffer.enter l h w) = Done r w_out ->
  is_Some (helpers w_out !! l) ->
  ColorBuffer.with_context (Some l) failure body w
  = Done r (ColorBuffer.leave l (negb (isBound h)) w_out).
Proof.
  intros Hl Hok Hbody [h1 Hl1]. unfold ColorBuffer.with_context, bind.
  unfold ColorBuffer.enter in Hbody. unfold ColorBuffer.leave.
  destruct (isBound h) eqn:Hb; simpl in *.
  - rewrite (ctor_bound _ _ _ Hl Hb). unfold isOk; cbn [mHelper negb NULL]; cbv beta. rewrite Hbody.
    rewrite dtor_nothing_owed by reflexivity. reflexivity.
  - rewrite (ctor_setup_done _ _ _ Hl Hb Hok). unfold isOk; cbn [mHelper negb NULL]; cbv beta.
    rewrite Hbody. unfold dtor, bind.
    rewrite (release_owed _ _ l h1) by (reflexivity || exact Hl1).
    rewrite Hl1. reflexivity.
Qed.

Lemma with_context_crashed {A} w l h (failure : A) (body : M H D A) f :
  helpers w !! l = Some h ->
  isBound h || (setupContext h).1 = true ->
  body (ColorBuffer.enter l h w) = Crash f ->
  ColorBuffer.with_context (Some l) failure body w = Crash f.
Proof.
  intros Hl Hok Hbody. unfold ColorBuffer.with_context, bind.
  unfold ColorBuffer.enter in Hbody.
  destruct (isBound h) eqn:Hb; simpl in *.
  - rewrite (ctor_bound _ _ _ Hl Hb). unfold isOk; cbn [mHelper negb NULL]; cbv beta.
    rewrite Hbody. reflexivity.
  - rewrite (ctor_setup_done _ _ _ Hl Hb Hok). unfold isOk; cbn [mHelper negb NULL]; cbv beta.
    rewrite Hbody. reflexivity.
Qed.

(** Without a live helper nothing completes. *)
Lemma with_context_no_helper {A} w p (failure : A) (body : M H D A) r w1 :
  ColorBuffer.with_context p failure body w = Done r w1 ->
  exists l h, p = Some l /\ helpers w !! l = Some h.
Proof.
  unfold ColorBuffer.with_context, bind, ctor, bind, call_isBound, bind, deref.
  destruct p as [l|]; [|discriminate].
  destruct (helpers w !! l) as [h|] eqn:Hl; [|discriminate].
  intros _. exists l, h. split; [reflexivity|exact Hl].
Qed.

Lemma enter_driver l h w : driver (ColorBuffer.enter l h w) = driver w.
Proof. unfold ColorBuffer.enter. destruct (isBound h); reflexivity. Qed.

Lemma enter_images l h w : images (ColorBuffer.enter l h w) = images w.
Proof. unfold ColorBuffer.enter. destruct (isBound h); reflexivity. Qed.

Lemma enter_helpers_live l h w :
  helpers w !! l = Some h -> is_Some (helpers (ColorBuffer.enter l h w) !! l).
Proof.
  intros Hl. unfold ColorBuffer.enter. destruct (isBound h); simpl.
  - rewrite Hl. eexists; reflexivity.
  - rewrite lookup_insert_eq. eexists; reflexivity.
Qed.

Lemma acquires_live l h w :
  helpers w !! l = Some h ->
  ColorBuffer.acquires (Some l) w = isBound h || (setupContext h).1.
Proof. intros Hl. unfold ColorBuffer.acquires. rewrite Hl. reflexivity. Qed.

Lemma enter_driver_calls l h w :
  driver_calls (trace (ColorBuffer.enter l h w)) = driver_calls (trace w).
Proof. unfold ColorBuffer.enter. destruct (isBound h); reflexivity. Qed.

Lemma enter_no_teardown l h w :
  calls CallTeardownContext (trace (ColorBuffer.enter l h w))
  = calls CallTeardownContext (trace w).
Proof. unfold ColorBuffer.enter. destruct (isBound h); reflexivity. Qed.
End ContextFacts.

Section FailureClaims.
Context {H D : Type} {HH : Helper H} {PD : Platform D}
  {PF : PixelFormats} {IM : Implementer}.
Implicit Types (w : World H D) (l : loc) (h : H) (this : ColorBuffer.t).

(** C4.  Every public operation whose guard is not ok (no context bound and
    [setupContext()] fails) returns its failure result at once: the
    instance is unchanged, the only calls made are the guard's [isBound()]
    and [setupContext()], so no driver or collaborator call is made, the
    driver state and the GPU images are untouched and no teardown is made.
    In particular [blitFromCurrentReadBuffer()] returns false. *)
Theorem operation_without_context_fails_at_once (op : Op) this w l h :
  ColorBuffer.m_helper this = Some l ->
  helpers w !! l = Some h ->
  isBound h = false ->
  (setupContext h).1 = false ->
  exists w1,
    ColorBuffer.run op this w = Done (ColorBuffer.failure_of op, this) w1
    /\ trace w1
       = HelperCall l CallSetupContext :: HelperCall l CallIsBound :: trace w
    /\ driver_calls (trace w1) = driver_calls (trace w)
    /\ driver w1 = driver w
    /\ images w1 = images w
    /\ calls CallTeardownContext (trace w1)
       = calls CallTeardownContext (trace w)
    /\ ColorBuffer.blitFromCurrentReadBuffer this w = Done (RetBool false, this) w1.
Proof.
  intros Hp Hl Hb Hs. exists (ColorBuffer.enter l h w).
  split.
  { unfold ColorBuffer.run. rewrite Hp.
    apply with_context_refused; assumption. }
  split; [unfold ColorBuffer.enter; rewrite Hb; reflexivity|].
  split; [apply enter_driver_calls|].
  split; [apply enter_driver|].
  split; [apply enter_images|].
  split; [apply enter_no_teardown|].
  unfold ColorBuffer.blitFromCurrentReadBuffer, ColorBuffer.run. rewrite Hp.
  apply with_context_refused; assumption.
Qed.

Lemma create_rejects_dimensions p_display p_width p_height p_internalFormat
    p_frameworkFormat has_eglimage_texture_2d hndl helper w :
  p_width <= 0 \/ p_height <= 0 ->
  ColorBuffer.create p_display p_width p_height p_internalFormat
    p_frameworkFormat has_eglimage_texture_2d hndl helper w
  = Done None w.
Proof.
  intros Hdim. unfold ColorBuffer.create.
  replace ((p_width <=? 0) || (p_height <=? 0)) with true; [reflexivity|].
  symmetry. apply orb_true_iff.
  destruct Hdim; [left|right]; apply Z.leb_le; assumption.
Qed.

(** C5.  [create] produces no instance when the dimensions are not
    positive (in particular for width 0, whatever the other arguments and
    the world, which is left untouched) and when the image allocation fails
    at the driver; an instance is produced only for positive dimensions and
    a successful allocation. *)
Theorem create_fails_without_instance p_display p_width p_height
    p_internalFormat p_frameworkFormat has_eglimage_texture_2d hndl :
  (forall helper w,
      p_width <= 0 \/ p_height <= 0 ->
      ColorBuffer.create p_display p_width p_height p_internalFormat
        p_frameworkFormat has_eglimage_texture_2d hndl helper w
      = Done None w)
  /\ (forall helper w,
        ColorBuffer.create p_display 0 p_height p_internalFormat
          p_frameworkFormat has_eglimage_texture_2d hndl helper w
        = Done None w)
  /\ (forall l h w,
        helpers w !! l = Some h ->
        (createImage p_display p_width p_height
           (chooseInternalFormat p_internalFormat) has_eglimage_texture_2d
           (driver w)).1 = None ->
        exists w1,
          ColorBuffer.create p_display p_width p_height p_internalFormat
            p_frameworkFormat has_eglimage_texture_2d hndl (Some l) w
          = Done None w1)
  /\ (forall helper w cb w1,
        ColorBuffer.create p_display p_width p_height p_internalFormat
          p_frameworkFormat has_eglimage_texture_2d hndl helper w
        = Done (Some cb) w1 ->
        0 < p_width /\ 0 < p_height
        /\ is_Some (createImage p_display p_width p_height
                      (chooseInternalFormat p_internalFormat)
                      has_eglimage_texture_2d (driver w)).1).
Proof.
  split; [intros helper w; apply create_rejects_dimensions|].
  split; [intros helper w; apply create_rejects_dimensions; left; lia|].
  split.
  - intros l h w Hl Halloc.
    destruct (Z_le_gt_dec p_width 0) as [Hw|Hw];
      [exists w; apply create_rejects_dimensions; left; exact Hw|].
    destruct (Z_le_gt_dec p_height 0) as [Hh|Hh];
      [exists w; apply create_rejects_dimensions; right; exact Hh|].
    unfold ColorBuffer.create.
    replace ((p_width <=? 0) || (p_height <=? 0)) with false
      by (symmetry; apply orb_false_iff; split; apply Z.leb_gt; lia).
    destruct (isBound h || (setupContext h).1) eqn:Hok.
    + eexists. eapply with_context_acquired; [exact Hl|exact Hok| |].
      * unfold ColorBuffer.create_body, bind, ColorBuffer.drv.
        rewrite enter_driver. cbn [fst snd]. rewrite Halloc. reflexivity.
      * simpl. apply enter_helpers_live, Hl.
    + apply orb_false_iff in Hok as [Hb Hs]. eexists.
      apply (with_context_refused _ _ _ _ _ Hl Hb Hs).
  - intros helper w cb w1.
    destruct (Z_le_gt_dec p_width 0) as [Hw|Hw];
      [rewrite create_rejects_dimensions by (left; exact Hw); discriminate|].
    destruct (Z_le_gt_dec p_height 0) as [Hh|Hh];
      [rewrite create_rejects_dimensions by (right; exact Hh); discriminate|].
    intros E. split; [lia|]. split; [lia|].
    unfold ColorBuffer.create in E.
    replace ((p_width <=? 0) || (p_height <=? 0)) with false in E
      by (symmetry; apply orb_false_iff; split; apply Z.leb_gt; lia).
    destruct (with_context_no_helper _ _ _ _ _ _ E) as (l & h & -> & Hl).
    destruct (isBound h || (setupContext h).1) eqn:Hok.
    + destruct (createImage p_display p_width p_height
                  (chooseInternalFormat p_internalFormat)
                  has_eglimage_texture_2d (driver w)).1 as [ti|] eqn:Halloc;
        [eexists; reflexivity|].
      exfalso.
      erewrite with_context_acquired in E; cycle 1.
      { exact Hl. }
      { exact Hok. }
      { unfold ColorBuffer.create_body, bind, ColorBuffer.drv.
        rewrite enter_driver. cbn [fst snd]. rewrite Halloc. reflexivity. }
      { simpl. apply enter_helpers_live, Hl. }
      discriminate E.
    + apply orb_false_iff in Hok as [Hb Hs].
      rewrite (with_context_refused _ _ _ _ _ Hl Hb Hs) in E. discriminate E.
Qed.
End FailureClaims.

(** Symbolic execution of a monadic body held in hypothesis [E]: unfold the
    primitive actions and split on the innermost scrutinee until the outcome
    is explicit. *)
Ltac unfold_actions E :=
  repeat (progress unfold ColorBuffer.upload, call_getTextureDraw, bind, ret,
            crash, ColorBuffer.drv, record_call, ColorBuffer.set_pixels,
            ColorBuffer.primary_pixels, deref in E);
  cbn beta iota in E.

Ltac split_innermost E :=
  match type of E with
  | context [match ?x with _ => _ end] =>
      lazymatch x with
      | context [match _ with _ => _ end] => fail
      | _ => destruct x eqn:?; try discriminate E
      end
  end.

Ltac execute E :=
  unfold_actions E; repeat (split_innermost E; unfold_actions E).

Ltac close_effect :=
  unfold ColorBuffer.has_resizer, ColorBuffer.has_yuv_conversion_fbo,
    ColorBuffer.needs_yuv_target, ColorBuffer.needs_resizer,
    ColorBuffer.same_fixed_members in *;
  simpl in *;
  repeat match goal with Hx : ?x = _ |- context [?x] => rewrite Hx end;
  simpl; rewrite ?orb_false_r, ?orb_true_r;
  repeat split; intros; try congruence; try discriminate.

Ltac crush_flags :=
  repeat match goal with
         | |- context [ColorBuffer.needs_resizer ?o] =>
             destruct (ColorBuffer.needs_resizer o)
         | |- context [ColorBuffer.needs_yuv_target ?t ?o] =>
             destruct (ColorBuffer.needs_yuv_target t o)
         | |- context [match ColorBuffer.m_resizer ?t with _ => _ end] =>
             destruct (ColorBuffer.m_resizer t)
         | |- context [(?a =? ?b)%Z] => destruct (a =? b)%Z
         | |- context [is_yuv ?f] => destruct (is_yuv f)
         | |- context [match ?o with OpScale => _ | _ => _ end] => destruct o
         end;
  simpl; try lia; try congruence; try reflexivity.

Section BodyFacts.
Context {H D : Type} {HH : Helper H} {PD : Platform D}
        {PF : PixelFormats} {IM : Implementer}.
Implicit Types (w : World H D) (l : loc) (h : H) (this : ColorBuffer.t).

Lemma same_fixed_members_refl this : ColorBuffer.same_fixed_members this this.
Proof. unfold ColorBuffer.same_fixed_members. repeat split. Qed.

Lemma same_fixed_members_trans a b c :
  ColorBuffer.same_fixed_members a b -> ColorBuffer.same_fixed_members b c ->
  ColorBuffer.same_fixed_members a c.
Proof.
  unfold ColorBuffer.same_fixed_members. intuition congruence.
Qed.

(** What the GPU work of an operation does to the instance, to the helper
    store and to the count of creations of lazy parts. *)
Lemma body_effect op this w r this' w' :
  ColorBuffer.body op this w = Done (r, this') w' ->
  helpers w' = helpers w
  /\ ColorBuffer.same_fixed_members this this'
  /\ ColorBuffer.m_blitTex this' = ColorBuffer.m_blitTex this
  /\ ColorBuffer.m_blitEGLImage this' = ColorBuffer.m_blitEGLImage this
  /\ ColorBuffer.has_resizer this'
     = ColorBuffer.has_resizer this || ColorBuffer.needs_resizer op
  /\ (ColorBuffer.has_resizer this = true ->
      ColorBuffer.m_resizer this' = ColorBuffer.m_resizer this)
  /\ ColorBuffer.has_yuv_conversion_fbo this'
     = ColorBuffer.has_yuv_conversion_fbo this
       || ColorBuffer.needs_yuv_target this op
  /\ (ColorBuffer.has_yuv_conversion_fbo this = true ->
      ColorBuffer.m_yuv_conversion_fbo this'
      = ColorBuffer.m_yuv_conversion_fbo this).
Proof.
  intros E.
  destruct op; cbn [ColorBuffer.body] in E;
    unfold ColorBuffer.readPixels_body, ColorBuffer.subUpdate_body,
      ColorBuffer.draw_body, ColorBuffer.scale_body, ColorBuffer.post_body,
      ColorBuffer.bindToTexture_body, ColorBuffer.bindToRenderbuffer_body,
      ColorBuffer.blitFromCurrentReadBuffer_body, ColorBuffer.readback_body in E;
    execute E; injection E as <- <- <-; close_effect.
Qed.

(** The GPU work of an operation creates the resizer and the YUV target at
    most once, when it needs one that is absent, and never the copy
    target. *)
Lemma body_creations op this w r this' w' :
  ColorBuffer.body op this w = Done (r, this') w' ->
  driver_op_calls DrvNewResizer (trace w')
  = (driver_op_calls DrvNewResizer (trace w)
     + (if ColorBuffer.needs_resizer op && negb (ColorBuffer.has_resizer this)
        then 1 else 0))%nat
  /\ driver_op_calls DrvGenFramebuffer (trace w')
     = (driver_op_calls DrvGenFramebuffer (trace w)
        + (if ColorBuffer.needs_yuv_target this op
              && negb (ColorBuffer.has_yuv_conversion_fbo this)
           then 1 else 0))%nat
  /\ driver_op_calls DrvCreateBlitImage (trace w')
     = driver_op_calls DrvCreateBlitImage (trace w).
Proof.
  intros E.
  destruct op; cbn [ColorBuffer.body] in E;
    unfold ColorBuffer.readPixels_body, ColorBuffer.subUpdate_body,
      ColorBuffer.draw_body, ColorBuffer.scale_body, ColorBuffer.post_body,
      ColorBuffer.bindToTexture_body, ColorBuffer.bindToRenderbuffer_body,
      ColorBuffer.blitFromCurrentReadBuffer_body, ColorBuffer.readback_body in E;
    execute E; injection E as <- <- <-;
    unfold driver_op_calls, ColorBuffer.has_resizer,
      ColorBuffer.has_yuv_conversion_fbo, ColorBuffer.needs_yuv_target,
      ColorBuffer.needs_resizer in *;
    simpl in *;
    repeat match goal with Hx : ?x = _ |- context [?x] => rewrite Hx end;
    simpl; rewrite ?andb_false_r; repeat split; lia.
Qed.

(** The copy target is created when absent, with its image and its texture
    together, and is otherwise left alone. *)
Lemma ensure_blit_target_effect this w :
  exists this1 w1,
    ColorBuffer.ensure_blit_target this w = Done this1 w1
    /\ helpers w1 = helpers w
    /\ ColorBuffer.same_fixed_members this this1
    /\ ColorBuffer.m_resizer this1 = ColorBuffer.m_resizer this
    /\ ColorBuffer.m_yuv_conversion_fbo this1 = ColorBuffer.m_yuv_conversion_fbo this
    /\ ColorBuffer.has_blitTex this1 = true
    /\ (ColorBuffer.has_blitTex this = true -> this1 = this /\ w1 = w)
    /\ (ColorBuffer.has_blitTex this = false ->
        ColorBuffer.has_blitEGLImage this1 = true)
    /\ driver_op_calls DrvCreateBlitImage (trace w1)
       = (driver_op_calls DrvCreateBlitImage (trace w)
          + (if ColorBuffer.has_blitTex this then 0 else 1))%nat
    /\ driver_op_calls DrvNewResizer (trace w1)
       = driver_op_calls DrvNewResizer (trace w)
    /\ driver_op_calls DrvGenFramebuffer (trace w1)
       = driver_op_calls DrvGenFramebuffer (trace w).
Proof.
  unfold ColorBuffer.ensure_blit_target.
  destruct (ColorBuffer.has_blitTex this) eqn:Hb.
  - exists this, w. unfold ret.
    repeat split; try (intros; congruence); try lia.
  - eexists _, _. unfold bind, ColorBuffer.drv, ret. split; [reflexivity|].
    unfold driver_op_calls, ColorBuffer.has_blitTex,
      ColorBuffer.has_blitEGLImage; simpl.
    repeat split; try (intros; congruence); try lia.
Qed.
(** Every completed run under a guard went one of two ways. *)
Lemma with_context_inv {A} w l h (failure : A) (body : M H D A) r w' :
  helpers w !! l = Some h ->
  (forall r0 w_out,
      body (ColorBuffer.enter l h w) = Done r0 w_out ->
      is_Some (helpers w_out !! l)) ->
  ColorBuffer.with_context (Some l) failure body w = Done r w' ->
  (ColorBuffer.acquires (Some l) w = false
   /\ r = failure /\ w' = ColorBuffer.enter l h w)
  \/ (ColorBuffer.acquires (Some l) w = true
      /\ exists w_out,
           body (ColorBuffer.enter l h w) = Done r w_out
           /\ w' = ColorBuffer.leave l (negb (isBound h)) w_out).
Proof.
  intros Hl Hlive E. rewrite (acquires_live _ _ _ Hl).
  destruct (isBound h || (setupContext h).1) eqn:Hok.
  - right. split; [reflexivity|].
    destruct (body (ColorBuffer.enter l h w)) as [r0 w_out|f] eqn:Hbody.
    + rewrite (with_context_acquired _ _ _ _ _ _ _ Hl Hok Hbody
                 (Hlive _ _ eq_refl)) in E.
      injection E as <- <-. exists w_out. split; reflexivity.
    + rewrite (with_context_crashed _ _ _ _ _ _ Hl Hok Hbody) in E.
      discriminate E.
  - left. apply orb_false_iff in Hok as [Hb Hs].
    rewrite (with_context_refused _ _ _ _ _ Hl Hb Hs) in E.
    injection E as <- <-. repeat split.
Qed.

Lemma leave_driver_op_calls c l owed w :
  driver_op_calls c (trace (ColorBuffer.leave l owed w))
  = driver_op_calls c (trace w).
Proof.
  unfold ColorBuffer.leave. destruct owed; [|reflexivity].
  destruct (helpers w !! l); reflexivity.
Qed.

Lemma enter_driver_op_calls c l h w :
  driver_op_calls c (trace (ColorBuffer.enter l h w))
  = driver_op_calls c (trace w).
Proof. unfold ColorBuffer.enter. destruct (isBound h); reflexivity. Qed.

(** What a completed public operation does to the instance: the fixed
    members stay, each lazy part is present afterwards exactly if it was
    before or the operation needed it and got past its guard, a part that
    was present is the same afterwards, and each part is created (one call)
    exactly when it goes from absent to present. *)
Lemma run_effect op this w r this' w' :
  ColorBuffer.run op this w = Done (r, this') w' ->
  ColorBuffer.same_fixed_members this this'
  /\ ColorBuffer.has_resizer this'
     = ColorBuffer.has_resizer this
       || (ColorBuffer.needs_resizer op
           && ColorBuffer.acquires (ColorBuffer.m_helper this) w)
  /\ ColorBuffer.has_yuv_conversion_fbo this'
     = ColorBuffer.has_yuv_conversion_fbo this
       || (ColorBuffer.needs_yuv_target this op
           && ColorBuffer.acquires (ColorBuffer.m_helper this) w)
  /\ ColorBuffer.has_blitTex this'
     = ColorBuffer.has_blitTex this
       || (usesBlitTarget op
           && ColorBuffer.acquires (ColorBuffer.m_helper this) w)
  /\ (ColorBuffer.blit_target_paired this -> ColorBuffer.blit_target_paired this')
  /\ (ColorBuffer.has_resizer this = true ->
      ColorBuffer.m_resizer this' = ColorBuffer.m_resizer this)
  /\ (ColorBuffer.has_yuv_conversion_fbo this = true ->
      ColorBuffer.m_yuv_conversion_fbo this'
      = ColorBuffer.m_yuv_conversion_fbo this)
  /\ (ColorBuffer.has_blitTex this = true ->
      ColorBuffer.m_blitTex this' = ColorBuffer.m_blitTex this
      /\ ColorBuffer.m_blitEGLImage this' = ColorBuffer.m_blitEGLImage this)
  /\ driver_op_calls DrvNewResizer (trace w')
     = (driver_op_calls DrvNewResizer (trace w)
        + (if ColorBuffer.has_resizer this'
              && negb (ColorBuffer.has_resizer this) then 1 else 0))%nat
  /\ driver_op_calls DrvGenFramebuffer (trace w')
     = (driver_op_calls DrvGenFramebuffer (trace w)
        + (if ColorBuffer.has_yuv_conversion_fbo this'
              && negb (ColorBuffer.has_yuv_conversion_fbo this)
           then 1 else 0))%nat
  /\ driver_op_calls DrvCreateBlitImage (trace w')
     = (driver_op_calls DrvCreateBlitImage (trace w)
        + (if ColorBuffer.has_blitTex this'
              && negb (ColorBuffer.has_blitTex this) then 1 else 0))%nat.
Proof.
  intros E. unfold ColorBuffer.run in E.
  destruct (with_context_no_helper _ _ _ _ _ _ E) as (l & h & Hp & Hl).
  rewrite Hp in *.
  set (work := (this1 <- (if usesBlitTarget op
                          then ColorBuffer.ensure_blit_target this
                          else ret this) ;;
                ColorBuffer.body op this1)%cxx) in E.
  assert (Hwork : forall r0 w_out,
             work (ColorBuffer.enter l h w) = Done r0 w_out ->
             exists this1 w_in,
               (if usesBlitTarget op then ColorBuffer.ensure_blit_target this
                else ret this) (ColorBuffer.enter l h w) = Done this1 w_in
               /\ ColorBuffer.body op this1 w_in = Done r0 w_out).
  { intros r0 w_out Hw. unfold work, bind in Hw.
    destruct ((if usesBlitTarget op then ColorBuffer.ensure_blit_target this
               else ret this) (ColorBuffer.enter l h w)) as [this1 w_in|];
      [|discriminate]. exists this1, w_in. split; [reflexivity|exact Hw]. }
  assert (Hprep : forall this1 w_in,
             (if usesBlitTarget op then ColorBuffer.ensure_blit_target this
              else ret this) (ColorBuffer.enter l h w) = Done this1 w_in ->
             helpers w_in = helpers (ColorBuffer.enter l h w)).
  { intros this1 w_in Hq. destruct (usesBlitTarget op).
    - destruct (ensure_blit_target_effect this (ColorBuffer.enter l h w))
        as (t1 & w1 & E1 & Hh & _). rewrite E1 in Hq.
      injection Hq as <- <-. exact Hh.
    - injection Hq as <- <-. reflexivity. }
  apply (with_context_inv w l h) in E; [|exact Hl|].
  2:{ intros [r0 t0] w_out Hw. apply Hwork in Hw as (this1 & w_in & Hq & Hb).
      apply body_effect in Hb as (Hh & _). rewrite Hh, (Hprep _ _ Hq).
      apply enter_helpers_live, Hl. }
  destruct E as [(Hacq & Hr & Hw')|(Hacq & w_out & Hw & Hw')]; rewrite Hacq.
  - injection Hr as -> ->. subst w'. rewrite !andb_false_r, !orb_false_r.
    rewrite !andb_negb_r, !enter_driver_op_calls.
    split; [apply same_fixed_members_refl|].
    repeat split; try reflexivity; try lia; intros; assumption.
  - subst w'. rewrite !andb_true_r, !leave_driver_op_calls.
    apply Hwork in Hw as (this1 & w_in & Hq & Hb).
    pose proof (body_effect _ _ _ _ _ _ Hb)
      as (_ & Hfix & Hbt & Hbi & Hres & Hreskeep & Hyuv & Hyuvkeep).
    pose proof (body_creations _ _ _ _ _ _ Hb) as (Cres & Cyuv & Cblit).
    rewrite Cres, Cyuv, Cblit, Hres, Hyuv.
    unfold ColorBuffer.blit_target_paired, ColorBuffer.has_blitTex,
      ColorBuffer.has_blitEGLImage in *.
    rewrite Hbt, Hbi.
    destruct (usesBlitTarget op).
    + destruct (ensure_blit_target_effect this (ColorBuffer.enter l h w))
        as (t1 & w1 & E1 & Hh & Hfix1 & Hr1 & Hy1 & Hhas & Hsame & Hnew
            & C1 & C2 & C3).
      rewrite E1 in Hq. injection Hq as <- <-.
      unfold ColorBuffer.has_blitTex, ColorBuffer.has_blitEGLImage,
        ColorBuffer.has_resizer, ColorBuffer.has_yuv_conversion_fbo,
        ColorBuffer.needs_yuv_target in *.
      rewrite C1, C2, C3, !enter_driver_op_calls, Hhas, Hr1, Hy1.
      assert (Hff : ColorBuffer.m_frameworkFormat t1
                    = ColorBuffer.m_frameworkFormat this)
        by (symmetry; apply Hfix1).
      rewrite Hff.
      split; [eapply same_fixed_members_trans; eassumption|].
      split; [reflexivity|]. split; [reflexivity|].
      split; [rewrite orb_true_r; reflexivity|].
      split.
      { intros Hpair.
        destruct (negb (ColorBuffer.m_blitTex this =? 0)) eqn:Hold.
        - destruct (Hsame eq_refl) as [-> _]. exact Hpair.
        - rewrite (Hnew eq_refl). reflexivity. }
      split; [intros Hx; rewrite <- Hr1; apply Hreskeep; rewrite Hr1; exact Hx|].
      split; [intros Hx; rewrite <- Hy1; apply Hyuvkeep; rewrite Hy1; exact Hx|].
      split; [intros Hx; destruct (Hsame Hx) as [-> _]; split; reflexivity|].
      repeat split;
        crush_flags.
    + injection Hq as <- <-. rewrite !enter_driver_op_calls.
      unfold ColorBuffer.has_blitTex, ColorBuffer.has_blitEGLImage,
        ColorBuffer.has_resizer, ColorBuffer.has_yuv_conversion_fbo in *.
      split; [exact Hfix|].
      rewrite !orb_false_r.
      repeat split; try assumption; try reflexivity;
        crush_flags.
Qed.
Lemma some_executed_ext (f g : Op -> bool) ops this w :
  (forall op, f op = g op) ->
  ColorBuffer.some_executed f ops this w = ColorBuffer.some_executed g ops this w.
Proof.
  intros Hfg. revert this w.
  induction ops as [|op rest IH]; intros this w; [reflexivity|].
  simpl. destruct (ColorBuffer.run op this w) as [r w1|]; [|reflexivity].
  rewrite Hfg, IH. reflexivity.
Qed.

Lemma needs_yuv_target_fixed a b op :
  ColorBuffer.m_frameworkFormat a = ColorBuffer.m_frameworkFormat b ->
  ColorBuffer.needs_yuv_target a op = ColorBuffer.needs_yuv_target b op.
Proof. intros E. unfold ColorBuffer.needs_yuv_target. rewrite E. reflexivity. Qed.

(** The effect of a completed sequence of public operations. *)
Lemma run_all_effect ops this w rets this' w' :
  ColorBuffer.run_all ops this w = Done (rets, this') w' ->
  ColorBuffer.same_fixed_members this this'
  /\ ColorBuffer.has_resizer this'
     = ColorBuffer.has_resizer this
       || ColorBuffer.some_executed ColorBuffer.needs_resizer ops this w
  /\ ColorBuffer.has_yuv_conversion_fbo this'
     = ColorBuffer.has_yuv_conversion_fbo this
       || ColorBuffer.some_executed (ColorBuffer.needs_yuv_target this) ops this w
  /\ ColorBuffer.has_blitTex this'
     = ColorBuffer.has_blitTex this
       || ColorBuffer.some_executed usesBlitTarget ops this w
  /\ (ColorBuffer.blit_target_paired this -> ColorBuffer.blit_target_paired this')
  /\ (ColorBuffer.has_resizer this = true ->
      ColorBuffer.m_resizer this' = ColorBuffer.m_resizer this)
  /\ (ColorBuffer.has_yuv_conversion_fbo this = true ->
      ColorBuffer.m_yuv_conversion_fbo this'
      = ColorBuffer.m_yuv_conversion_fbo this)
  /\ (ColorBuffer.has_blitTex this = true ->
      ColorBuffer.m_blitTex this' = ColorBuffer.m_blitTex this
      /\ ColorBuffer.m_blitEGLImage this' = ColorBuffer.m_blitEGLImage this)
  /\ driver_op_calls DrvNewResizer (trace w')
     = (driver_op_calls DrvNewResizer (trace w)
        + (if ColorBuffer.has_resizer this'
              && negb (ColorBuffer.has_resizer this) then 1 else 0))%nat
  /\ driver_op_calls DrvGenFramebuffer (trace w')
     = (driver_op_calls DrvGenFramebuffer (trace w)
        + (if ColorBuffer.has_yuv_conversion_fbo this'
              && negb (ColorBuffer.has_yuv_conversion_fbo this)
           then 1 else 0))%nat
  /\ driver_op_calls DrvCreateBlitImage (trace w')
     = (driver_op_calls DrvCreateBlitImage (trace w)
        + (if ColorBuffer.has_blitTex this'
              && negb (ColorBuffer.has_blitTex this) then 1 else 0))%nat.
Proof.
  revert this w rets this' w'.
  induction ops as [|op rest IH]; intros this w rets this' w' E.
  - injection E as <- <- <-. simpl. rewrite !orb_false_r, !andb_negb_r.
    split; [apply same_fixed_members_refl|].
    repeat split; try reflexivity; try lia; intros; assumption.
  - simpl in E. unfold bind in E.
    destruct (ColorBuffer.run op this w) as [[r thism] wm|] eqn:Erun;
      [|discriminate].
    simpl in E.
    destruct (ColorBuffer.run_all rest thism wm) as [[rs thisn] wn|] eqn:Erest;
      [|discriminate].
    injection E as <- <- <-.
    pose proof (run_effect _ _ _ _ _ _ Erun)
      as (Hfix1 & Hr1 & Hy1 & Hb1 & Hp1 & Kr1 & Ky1 & Kb1 & Cr1 & Cy1 & Cb1).
    apply IH in Erest
      as (Hfix2 & Hr2 & Hy2 & Hb2 & Hp2 & Kr2 & Ky2 & Kb2 & Cr2 & Cy2 & Cb2).
    assert (Hff : ColorBuffer.m_frameworkFormat thism
                  = ColorBuffer.m_frameworkFormat this)
      by (symmetry; apply Hfix1).
    rewrite (some_executed_ext _ (ColorBuffer.needs_yuv_target this)) in Hy2
      by (intros o; apply needs_yuv_target_fixed, Hff).
    cbn [ColorBuffer.some_executed]. rewrite Erun. cbn [snd].
    split; [eapply same_fixed_members_trans; eassumption|].
    split; [rewrite Hr2, Hr1, orb_assoc; reflexivity|].
    split; [rewrite Hy2, Hy1, orb_assoc; reflexivity|].
    split; [rewrite Hb2, Hb1, orb_assoc; reflexivity|].
    split; [intros Hx; apply Hp2, Hp1, Hx|].
    split.
    { intros Hx. rewrite <- (Kr1 Hx). apply Kr2. rewrite Hr1, Hx. reflexivity. }
    split.
    { intros Hx. rewrite <- (Ky1 Hx). apply Ky2. rewrite Hy1, Hx. reflexivity. }
    split.
    { intros Hx. destruct (Kb1 Hx) as [<- <-]. apply Kb2.
      rewrite Hb1, Hx. reflexivity. }
    rewrite Cr2, Cy2, Cb2, Cr1, Cy1, Cb1. clear Cr2 Cy2 Cb2 Cr1 Cy1 Cb1.
    rewrite Hr2, Hy2, Hb2, Hr1, Hy1, Hb1.
    repeat split;
      repeat match goal with
             | |- context [ColorBuffer.some_executed ?f ?o ?t ?x] =>
                 destruct (ColorBuffer.some_executed f o t x)
             | |- context [ColorBuffer.acquires ?a ?b] =>
                 destruct (ColorBuffer.acquires a b)
             | |- context [ColorBuffer.has_resizer ?t] =>
                 destruct (ColorBuffer.has_resizer t)
             | |- context [ColorBuffer.has_yuv_conversion_fbo ?t] =>
                 destruct (ColorBuffer.has_yuv_conversion_fbo t)
             | |- context [ColorBuffer.has_blitTex ?t] =>
                 destruct (ColorBuffer.has_blitTex t)
             | |- context [ColorBuffer.needs_resizer ?o] =>
                 destruct (ColorBuffer.needs_resizer o)
             | |- context [ColorBuffer.needs_yuv_target ?t ?o] =>
                 destruct (ColorBuffer.needs_yuv_target t o)
             | |- context [usesBlitTarget ?o] => destruct (usesBlitTarget o)
             end; simpl; lia.
Qed.
End BodyFacts.

Section CreationFacts.
Context {H D : Type} {HH : Helper H} {PD : Platform D}
        {PF : PixelFormats} {IM : Implementer}.
Implicit Types (w : World H D) (l : loc) (h : H) (this : ColorBuffer.t).

Lemma create_body_effect p_display p_width p_height p_internalFormat
    p_frameworkFormat has_eglimage_texture_2d hndl helper w r w_out :
  ColorBuffer.create_body p_display p_width p_height p_internalFormat
    p_frameworkFormat has_eglimage_texture_2d hndl helper w = Done r w_out ->
  helpers w_out = helpers w
  /\ forall cb,
      r = Some cb ->
      ColorBuffer.fresh_instance p_width p_height p_internalFormat p_frameworkFormat helper cb
      /\ images w_out !! ColorBuffer.m_tex cb
         = Some (replicate (ColorBuffer.image_size cb) Byte.x00).
Proof.
  intros E. unfold ColorBuffer.create_body in E. execute E;
    injection E as <- <-; (split; [reflexivity|]); intros cb [= <-];
    unfold ColorBuffer.fresh_instance; simpl;
    rewrite lookup_insert_eq; repeat split.
Qed.

Lemma create_instance p_display p_width p_height p_internalFormat
    p_frameworkFormat has_eglimage_texture_2d hndl helper w cb w1 :
  ColorBuffer.create p_display p_width p_height p_internalFormat
    p_frameworkFormat has_eglimage_texture_2d hndl helper w
  = Done (Some cb) w1 ->
  0 < p_width /\ 0 < p_height
  /\ ColorBuffer.fresh_instance p_width p_height p_internalFormat p_frameworkFormat helper cb
  /\ images w1 !! ColorBuffer.m_tex cb
     = Some (replicate (ColorBuffer.image_size cb) Byte.x00).
Proof.
  intros E. unfold ColorBuffer.create in E.
  destruct ((p_width <=? 0) || (p_height <=? 0)) eqn:Hdim; [discriminate|].
  apply orb_false_iff in Hdim as [Hw Hh].
  apply Z.leb_gt in Hw, Hh. split; [exact Hw|]. split; [exact Hh|].
  destruct (with_context_no_helper _ _ _ _ _ _ E) as (l & h & -> & Hl).
  apply (with_context_inv w l h) in E; [|exact Hl|].
  2:{ intros r0 w_out Hb. apply create_body_effect in Hb as [Hh' _].
      rewrite Hh'. apply enter_helpers_live, Hl. }
  destruct E as [(_ & [=] & _)|(_ & w_out & Hb & ->)].
  apply create_body_effect in Hb as [_ Hcb].
  destruct (Hcb cb eq_refl) as [Hfresh Himg]. split; [exact Hfresh|].
  unfold ColorBuffer.leave.
  destruct (negb (isBound h)); [|exact Himg].
  destruct (helpers w_out !! l); exact Himg.
Qed.

Lemma to_GLuint_positive_int z : 0 < z -> is_int z -> to_GLuint z = z.
Proof.
  unfold is_int, to_GLuint. intros Hpos [_ Hlt].
  apply Z.mod_small. lia.
Qed.
End CreationFacts.

(** * Strided copies: what is written is what is read back *)

Section StridedCopies.
Implicit Types (data seg src : list Byte.byte) (off o len stride rowlen rows : nat).

Lemma length_splice data off seg :
  (off + length seg <= length data)%nat ->
  length (splice data off seg) = length data.
Proof.
  intros Hfit. unfold splice.
  rewrite !length_app, length_take, length_drop. lia.
Qed.

(** Reading exactly where a segment was written gives the segment. *)
Lemma read_splice_same data off seg :
  (off <= length data)%nat ->
  take (length seg) (drop off (splice data off seg)) = seg.
Proof.
  intros Hoff. unfold splice.
  rewrite drop_app_length' by (rewrite length_take; lia).
  apply take_app_length.
Qed.

(** Reading strictly before a written segment is not affected by it. *)
Lemma read_splice_before data off seg o len :
  (o + len <= off)%nat -> (off <= length data)%nat ->
  take len (drop o (splice data off seg)) = take len (drop o data).
Proof.
  intros Hbefore Hoff. unfold splice.
  rewrite drop_app_le by (rewrite length_take; lia).
  rewrite take_app_le by (rewrite length_drop, length_take; lia).
  rewrite !take_drop_commute, take_take.
  replace ((o + len) `min` off)%nat with (o + len)%nat by lia.
  reflexivity.
Qed.

Lemma length_write_rows rows : forall data stride off rowlen src,
  rows_fit data stride off rowlen rows ->
  length (write_rows data stride off rowlen rows src) = length data.
Proof.
  induction rows as [|r IH]; intros data stride off rowlen src Hfit;
    [reflexivity|].
  unfold rows_fit in Hfit. specialize (Hfit ltac:(lia)).
  assert (Hseg : (length (take rowlen src) <= rowlen)%nat)
    by (rewrite length_take; lia).
  simpl. rewrite IH.
  - apply length_splice. lia.
  - unfold rows_fit. rewrite length_splice by lia. intros Hr.
    destruct r as [|r']; [lia|]. simpl in *.
    rewrite Nat.sub_0_r in *. lia.
Qed.

Lemma read_write_rows_before rows : forall data stride off rowlen src o len,
  (o + len <= off)%nat ->
  rows_fit data stride off rowlen rows ->
  take len (drop o (write_rows data stride off rowlen rows src))
  = take len (drop o data).
Proof.
  induction rows as [|r IH]; intros data stride off rowlen src o len Hb Hfit;
    [reflexivity|].
  unfold rows_fit in Hfit. specialize (Hfit ltac:(lia)).
  assert (Hseg : (length (take rowlen src) <= rowlen)%nat)
    by (rewrite length_take; lia).
  simpl. rewrite IH.
  - apply read_splice_before; lia.
  - lia.
  - unfold rows_fit. rewrite length_splice by lia. intros Hr.
    destruct r as [|r']; [lia|]. simpl in *.
    rewrite Nat.sub_0_r in *. lia.
Qed.

(** Rows that do not overlap ([rowlen <= stride]) and fit are read back as
    they were written. *)
Lemma read_rows_write_rows rows : forall data stride off rowlen src,
  (rowlen <= stride)%nat ->
  rows_fit data stride off rowlen rows ->
  length src = (rows * rowlen)%nat ->
  read_rows (write_rows data stride off rowlen rows src) stride off rowlen rows
  = src.
Proof.
  induction rows as [|r IH]; intros data stride off rowlen src Hstride Hfit Hlen.
  - destruct src; [reflexivity|discriminate].
  - unfold rows_fit in Hfit. specialize (Hfit ltac:(lia)).
    assert (Hrow : length (take rowlen src) = rowlen)
      by (rewrite length_take; simpl in Hlen; lia).
    assert (Hfit' : rows_fit (splice data off (take rowlen src)) stride
                      (off + stride) rowlen r).
    { unfold rows_fit. rewrite length_splice by lia. intros Hr.
      destruct r as [|r']; [lia|]. simpl in *.
      rewrite Nat.sub_0_r in *. lia. }
    simpl. rewrite IH.
    + rewrite read_write_rows_before by (assumption || lia).
      rewrite <- Hrow at 1. rewrite read_splice_same by lia.
      apply take_drop.
    + exact Hstride.
    + exact Hfit'.
    + rewrite length_drop. simpl in Hlen. lia.
Qed.
End StridedCopies.

(** * The pixel round trip *)

Section RoundTrip.
Context {H D : Type} {HH : Helper H} {PD : Platform D}
        {PF : PixelFormats} {IM : Implementer}.
Implicit Types (w : World H D) (l : loc) (h : H) (this : ColorBuffer.t).

(** The geometry of the primary image depends on fixed members only. *)
Lemma fixed_geometry a b :
  ColorBuffer.same_fixed_members a b ->
  ColorBuffer.m_tex b = ColorBuffer.m_tex a
  /\ ColorBuffer.image_size b = ColorBuffer.image_size a
  /\ (forall x y width height,
        ColorBuffer.in_bounds b x y width height
        = ColorBuffer.in_bounds a x y width height)
  /\ (forall p_format p_type,
        ColorBuffer.is_internal b p_format p_type
        = ColorBuffer.is_internal a p_format p_type)
  /\ (forall data x y width height,
        ColorBuffer.read_rect b data x y width height
        = ColorBuffer.read_rect a data x y width height)
  /\ (forall data x y width height src,
        ColorBuffer.write_rect b data x y width height src
        = ColorBuffer.write_rect a data x y width height src).
Proof.
  intros (Ht & _ & Hw & Hh & _ & Hf & _).
  unfold ColorBuffer.image_size, ColorBuffer.in_bounds, ColorBuffer.is_internal,
    ColorBuffer.read_rect, ColorBuffer.write_rect, ColorBuffer.rect_offset,
    ColorBuffer.row_stride, ColorBuffer.internal_bpp.
  rewrite Ht, Hw, Hh, Hf. repeat split.
Qed.

(** Making sure of the copy target leaves helpers and images alone. *)
Lemma prepare_effect (op : Op) this w :
  exists this1 w1,
    (if usesBlitTarget op then ColorBuffer.ensure_blit_target this
     else ret this) w = Done this1 w1
    /\ helpers w1 = helpers w
    /\ images w1 = images w
    /\ ColorBuffer.same_fixed_members this this1.
Proof.
  destruct (usesBlitTarget op).
  - unfold ColorBuffer.ensure_blit_target.
    destruct (ColorBuffer.has_blitTex this).
    + exists this, w. repeat split.
    + eexists _, _. unfold bind, ColorBuffer.drv, ret.
      split; [reflexivity|]. repeat split.
  - exists this, w. repeat split.
Qed.

(** A public operation whose guard is ok. *)
Lemma run_acquired op this w l h this1 w_in r this' w_out :
  ColorBuffer.m_helper this = Some l ->
  helpers w !! l = Some h ->
  isBound h || (setupContext h).1 = true ->
  (if usesBlitTarget op then ColorBuffer.ensure_blit_target this
   else ret this) (ColorBuffer.enter l h w) = Done this1 w_in ->
  ColorBuffer.body op this1 w_in = Done (r, this') w_out ->
  ColorBuffer.run op this w
  = Done (r, this') (ColorBuffer.leave l (negb (isBound h)) w_out).
Proof.
  intros Hp Hl Hok Hprep Hbody. unfold ColorBuffer.run. rewrite Hp.
  apply with_context_acquired; [exact Hl|exact Hok| |].
  - unfold bind. rewrite Hprep. exact Hbody.
  - apply body_effect in Hbody as (Hh & _). rewrite Hh.
    destruct (prepare_effect op this (ColorBuffer.enter l h w))
      as (t1 & w1 & E1 & Hh1 & _).
    rewrite E1 in Hprep. injection Hprep as <- <-. rewrite Hh1.
    apply enter_helpers_live, Hl.
Qed.

Lemma leave_images l owed w : images (ColorBuffer.leave l owed w) = images w.
Proof.
  unfold ColorBuffer.leave. destruct owed; [|reflexivity].
  destruct (helpers w !! l); reflexivity.
Qed.

(** The upload in the identity-format case on a GL-compatible buffer. *)
Lemma subUpdate_body_identity this w x y width height p_format p_type pixels data :
  ColorBuffer.in_bounds this x y width height = true ->
  ColorBuffer.is_internal this p_format p_type = true ->
  is_yuv (ColorBuffer.m_frameworkFormat this) = false ->
  images w !! ColorBuffer.m_tex this = Some data ->
  ColorBuffer.subUpdate_body this x y width height p_format p_type pixels w
  = Done (RetVoid, this)
      (mkWorld (helpers w) (driver w)
         (<[ColorBuffer.m_tex this :=
              ColorBuffer.write_rect this data x y width height pixels]>
            (images w))
         (DriverCall DrvTexSubImage :: trace w)).
Proof.
  intros Hin Hid Hyuv Himg.
  unfold ColorBuffer.subUpdate_body, ColorBuffer.upload, ColorBuffer.to_internal,
    bind, ColorBuffer.primary_pixels.
  rewrite Hin, Hyuv, Hid. simpl. rewrite Himg. reflexivity.
Qed.

(** The read in the identity-format case. *)
Lemma readPixels_body_identity this w x y width height p_format p_type data :
  ColorBuffer.in_bounds this x y width height = true ->
  ColorBuffer.is_internal this p_format p_type = true ->
  images w !! ColorBuffer.m_tex this = Some data ->
  ColorBuffer.readPixels_body this x y width height p_format p_type w
  = Done (RetPixels (ColorBuffer.read_rect this data x y width height), this)
      (log_event (DriverCall DrvReadPixels) w).
Proof.
  intros Hin Hid Himg.
  unfold ColorBuffer.readPixels_body, ColorBuffer.from_internal, bind,
    ColorBuffer.primary_pixels.
  rewrite Hin, Hid. simpl. rewrite Himg. reflexivity.
Qed.

(** A rectangle within bounds is made of rows that fit and do not
    overlap. *)
Lemma in_bounds_rows_fit this data x y width height :
  ColorBuffer.in_bounds this x y width height = true ->
  length data = ColorBuffer.image_size this ->
  (Z.to_nat width * ColorBuffer.internal_bpp this
   <= ColorBuffer.row_stride this)%nat
  /\ rows_fit data (ColorBuffer.row_stride this)
       (ColorBuffer.rect_offset this x y)
       (Z.to_nat width * ColorBuffer.internal_bpp this) (Z.to_nat height).
Proof.
  unfold ColorBuffer.in_bounds, ColorBuffer.image_size, rows_fit,
    ColorBuffer.rect_offset, ColorBuffer.row_stride.
  intros Hin Hlen.
  repeat (apply andb_true_iff in Hin as [Hin ?]).
  repeat match goal with Hx : (_ <=? _) = true |- _ => apply Z.leb_le in Hx end.
  set (bpp := ColorBuffer.internal_bpp this) in *.
  assert (Hxw : (Z.to_nat x + Z.to_nat width
                 <= Z.to_nat (ColorBuffer.m_width this))%nat) by lia.
  assert (Hyh : (Z.to_nat y + Z.to_nat height
                 <= Z.to_nat (ColorBuffer.m_height this))%nat) by lia.
  generalize dependent (Z.to_nat (ColorBuffer.m_width this)).
  generalize dependent (Z.to_nat (ColorBuffer.m_height this)).
  generalize (Z.to_nat x) (Z.to_nat y) (Z.to_nat width) (Z.to_nat height).
  intros X Y Wd Ht Hh Hyh Wh Hlen Hxw. rewrite Hlen. split; [nia|].
  intros Hne.
  assert (E1 : (Y * (Wh * bpp) + X * bpp + (Ht - 1) * (Wh * bpp) + Wd * bpp
                = (Y + (Ht - 1)) * (Wh * bpp) + (X + Wd) * bpp)%nat) by lia.
  rewrite E1.
  assert (E2 : ((X + Wd) * bpp <= Wh * bpp)%nat) by nia.
  assert (E3 : ((Y + (Ht - 1)) * (Wh * bpp) + Wh * bpp <= Hh * (Wh * bpp))%nat).
  { replace ((Y + (Ht - 1)) * (Wh * bpp) + Wh * bpp)%nat
      with ((Y + (Ht - 1) + 1) * (Wh * bpp))%nat by lia.
    apply Nat.mul_le_mono_r. lia. }
  lia.
Qed.
Lemma read_rect_write_rect this data x y width height pixels :
  ColorBuffer.in_bounds this x y width height = true ->
  length data = ColorBuffer.image_size this ->
  length pixels
  = (Z.to_nat height * (Z.to_nat width * ColorBuffer.internal_bpp this))%nat ->
  ColorBuffer.read_rect this
    (ColorBuffer.write_rect this data x y width height pixels) x y width height
  = pixels.
Proof.
  intros Hin Hlen Hpx.
  destruct (in_bounds_rows_fit _ _ _ _ _ _ Hin Hlen) as [Hstride Hfit].
  unfold ColorBuffer.read_rect, ColorBuffer.write_rect.
  apply read_rows_write_rows; assumption.
Qed.

Lemma leave_helpers_live l owed w :
  is_Some (helpers w !! l) -> is_Some (helpers (ColorBuffer.leave l owed w) !! l).
Proof.
  intros [h Hl]. unfold ColorBuffer.leave. destruct owed; [|eexists; exact Hl].
  rewrite Hl. simpl. rewrite lookup_insert_eq. eexists; reflexivity.
Qed.

Lemma length_write_rect this data x y width height src :
  ColorBuffer.in_bounds this x y width height = true ->
  length data = ColorBuffer.image_size this ->
  length (ColorBuffer.write_rect this data x y width height src) = length data.
Proof.
  intros Hin Hlen. unfold ColorBuffer.write_rect.
  apply length_write_rows.
  apply (in_bounds_rows_fit _ _ _ _ _ _ Hin Hlen).
Qed.

Lemma body_keeps_primary_image op this w r this' w' :
  ColorBuffer.body op this w = Done (r, this') w' ->
  ColorBuffer.primary_image_ok this w ->
  ColorBuffer.primary_image_ok this' w'.
Proof.
  intros E (data & Himg & Hlen).
  destruct op; cbn [ColorBuffer.body] in E;
    unfold ColorBuffer.readPixels_body, ColorBuffer.subUpdate_body,
      ColorBuffer.draw_body, ColorBuffer.scale_body, ColorBuffer.post_body,
      ColorBuffer.bindToTexture_body, ColorBuffer.bindToRenderbuffer_body,
      ColorBuffer.blitFromCurrentReadBuffer_body, ColorBuffer.readback_body in E;
    execute E; injection E as <- <- <-;
    unfold ColorBuffer.primary_image_ok; simpl in *.
  all: repeat match goal with
             | Hx : Some _ = Some _ |- _ => injection Hx as ->
             | Hx : negb _ = false |- _ => apply negb_false_iff in Hx
             | Hx : (_ =? _)%nat = true |- _ => apply Nat.eqb_eq in Hx
             end.
  all: repeat match goal with
             | Hx : ?m !! ?k = Some ?a, Hy : ?m !! ?k = Some ?b |- _ =>
                 lazymatch a with
                 | b => fail
                 | _ => rewrite Hy in Hx; injection Hx as <-
                 end
             end.
  all: try (eexists; split; eassumption).
  all: rewrite lookup_insert_eq; eexists; (split; [reflexivity|]).
  all: try congruence.
  all: match goal with
       | Hin : ColorBuffer.in_bounds _ _ _ _ _ = true,
         Hl : length _ = ColorBuffer.image_size _ |- _ =>
           rewrite length_write_rect; [exact Hl|exact Hin|exact Hl]
       end.
Qed.

(** Every completed public operation keeps the primary image in place and
    at its size. *)
Lemma run_keeps_primary_image op this w r this' w' :
  ColorBuffer.run op this w = Done (r, this') w' ->
  ColorBuffer.primary_image_ok this w ->
  ColorBuffer.primary_image_ok this' w'.
Proof.
  intros E Hok. unfold ColorBuffer.run in E.
  destruct (with_context_no_helper _ _ _ _ _ _ E) as (l & h & Hp & Hl).
  rewrite Hp in E.
  destruct (prepare_effect op this (ColorBuffer.enter l h w))
    as (this1 & w_in & E1 & Hh1 & Hi1 & Hfix1).
  apply (with_context_inv w l h) in E; [|exact Hl|].
  2:{ intros [r0 t0] w_out Hw. unfold bind in Hw. rewrite E1 in Hw.
      apply body_effect in Hw as (Hh & _). rewrite Hh, Hh1.
      apply enter_helpers_live, Hl. }
  destruct E as [(_ & [= -> ->] & ->)|(_ & w_out & Hw & ->)].
  - destruct Hok as (data & Himg & Hlen). exists data.
    rewrite enter_images. split; assumption.
  - unfold bind in Hw. rewrite E1 in Hw.
    apply body_keeps_primary_image in Hw.
    + destruct Hw as (data & Himg & Hlen). exists data.
      rewrite leave_images. split; assumption.
    + destruct Hok as (data & Himg & Hlen).
      destruct (fixed_geometry _ _ Hfix1) as (Ht & Hs & _).
      exists data. rewrite Hi1, enter_images, Ht, Hs. split; assumption.
Qed.

Lemma run_all_keeps_primary_image ops : forall this w rets this' w',
  ColorBuffer.run_all ops this w = Done (rets, this') w' ->
  ColorBuffer.primary_image_ok this w ->
  ColorBuffer.primary_image_ok this' w'.
Proof.
  induction ops as [|op rest IH]; intros this w rets this' w' E Hok.
  - injection E as <- <- <-. exact Hok.
  - simpl in E. unfold bind in E.
    destruct (ColorBuffer.run op this w) as [[r thism] wm|] eqn:Erun;
      [|discriminate].
    simpl in E.
    destruct (ColorBuffer.run_all rest thism wm) as [[rs thisn] wn|] eqn:Erest;
      [|discriminate].
    injection E as <- <- <-.
    eapply IH; [exact Erest|].
    eapply run_keeps_primary_image; [exact Erun|exact Hok].
Qed.

(** [create] leaves the primary image in place, cleared. *)
Lemma create_primary_image_ok p_display p_width p_height p_internalFormat
    p_frameworkFormat has_eglimage_texture_2d hndl helper w cb w1 :
  ColorBuffer.create p_display p_width p_height p_internalFormat
    p_frameworkFormat has_eglimage_texture_2d hndl helper w
  = Done (Some cb) w1 ->
  ColorBuffer.primary_image_ok cb w1.
Proof.
  intros E. apply create_instance in E as (_ & _ & _ & Himg).
  eexists. split; [exact Himg|]. apply length_replicate.
Qed.

(** With a live helper [scale()] always returns, and the helper stays
    live. *)
Lemma scale_completes this w l h :
  ColorBuffer.m_helper this = Some l ->
  helpers w !! l = Some h ->
  exists r this' w',
    ColorBuffer.scale this w = Done (r, this') w'
    /\ is_Some (helpers w' !! l).
Proof.
  intros Hp Hl. unfold ColorBuffer.scale.
  destruct (isBound h || (setupContext h).1) eqn:Hok.
  - destruct (prepare_effect OpScale this (ColorBuffer.enter l h w))
      as (this1 & w_in & E1 & Hh1 & _ & _).
    assert (Hbody : exists r this' w_out,
               ColorBuffer.body OpScale this1 w_in = Done (r, this') w_out).
    { cbn [ColorBuffer.body]. unfold ColorBuffer.scale_body, bind.
      destruct (ColorBuffer.m_resizer this1) as [rz|] eqn:Hrz.
      - unfold ret. rewrite Hrz. eexists _, _, _. reflexivity.
      - unfold ColorBuffer.drv, ret. cbn [ColorBuffer.m_resizer
          ColorBuffer.set_resizer]. eexists _, _, _. reflexivity. }
    destruct Hbody as (r & this' & w_out & Hbody).
    exists r, this', (ColorBuffer.leave l (negb (isBound h)) w_out).
    split; [exact (run_acquired _ _ _ _ _ _ _ _ _ _ Hp Hl Hok E1 Hbody)|].
    apply leave_helpers_live.
    apply body_effect in Hbody as (Hh & _). rewrite Hh, Hh1.
    apply enter_helpers_live, Hl.
  - apply orb_false_iff in Hok as [Hb Hs].
    exists (ColorBuffer.failure_of OpScale), this, (ColorBuffer.enter l h w).
    split; [|apply enter_helpers_live, Hl].
    unfold ColorBuffer.run. rewrite Hp.
    apply with_context_refused; assumption.
Qed.

(** C6.  The round trip in the identity-format case.  On a buffer with a
    GL-compatible framework format, for a rectangle within
    [0,width) x [0,height) and a format/type pair that is the internal
    representation, [subUpdate] of as many bytes as the rectangle holds
    followed by [readPixels] of the same rectangle with the same format and
    type returns exactly the uploaded bytes, both operations getting past
    their guard.  (The primary image is in place in every buffer made by
    [create] and stays so through every operation.) *)
Theorem sub_update_then_read_pixels_round_trip this w x y width height
    p_format p_type pixels :
  ColorBuffer.acquires (ColorBuffer.m_helper this) w = true ->
  ColorBuffer.in_bounds this x y width height = true ->
  ColorBuffer.is_internal this p_format p_type = true ->
  is_yuv (ColorBuffer.m_frameworkFormat this) = false ->
  ColorBuffer.primary_image_ok this w ->
  length pixels
  = (Z.to_nat height * (Z.to_nat width * ColorBuffer.internal_bpp this))%nat ->
  exists this1 w1,
    ColorBuffer.subUpdate this x y width height p_format p_type pixels w
    = Done (RetVoid, this1) w1
    /\ (ColorBuffer.acquires (ColorBuffer.m_helper this1) w1 = true ->
        exists this2 w2,
          ColorBuffer.readPixels this1 x y width height p_format p_type w1
          = Done (RetPixels pixels, this2) w2).
Proof.
  intros Hacq Hin Hid Hyuv (data & Himg & Hlen) Hpx.
  unfold ColorBuffer.acquires in Hacq.
  destruct (ColorBuffer.m_helper this) as [l|] eqn:Hp; [|discriminate].
  destruct (helpers w !! l) as [h|] eqn:Hl; [|discriminate].
  set (up := OpSubUpdate x y width height p_format p_type pixels).
  destruct (prepare_effect up this (ColorBuffer.enter l h w))
    as (this1 & w_in & E1 & Hh1 & Hi1 & Hfix1).
  destruct (fixed_geometry _ _ Hfix1) as (Ht1 & Hs1 & Hb1 & Hf1 & Hr1 & Hw1).
  assert (Hp1 : ColorBuffer.m_helper this1 = Some l)
    by (rewrite <- Hp; symmetry; apply Hfix1).
  assert (Hy1 : is_yuv (ColorBuffer.m_frameworkFormat this1) = false).
  { replace (ColorBuffer.m_frameworkFormat this1)
      with (ColorBuffer.m_frameworkFormat this); [exact Hyuv|apply Hfix1]. }
  assert (Himg1 : images w_in !! ColorBuffer.m_tex this1 = Some data)
    by (rewrite Hi1, enter_images, Ht1; exact Himg).
  pose proof (subUpdate_body_identity this1 w_in x y width height p_format
                p_type pixels data) as Hbody.
  rewrite Hb1, Hf1 in Hbody. specialize (Hbody Hin Hid Hy1 Himg1).
  eexists this1, _. split.
  { unfold ColorBuffer.subUpdate.
    exact (run_acquired up this w l h this1 w_in _ _ _ Hp Hl Hacq E1 Hbody). }
  set (w_out := mkWorld _ _ _ _) in *.
  set (w1 := ColorBuffer.leave l (negb (isBound h)) w_out).
  intros Hacq1. unfold ColorBuffer.acquires in Hacq1. rewrite Hp1 in Hacq1.
  destruct (helpers w1 !! l) as [h1|] eqn:Hl1; [|discriminate].
  set (rd := OpReadPixels x y width height p_format p_type).
  destruct (prepare_effect rd this1 (ColorBuffer.enter l h1 w1))
    as (this2 & w_in2 & E2 & Hh2 & Hi2 & Hfix2).
  destruct (fixed_geometry _ _ Hfix2) as (Ht2 & Hs2 & Hb2 & Hf2 & Hr2 & Hw2).
  assert (Himg2 : images w_in2 !! ColorBuffer.m_tex this2
                  = Some (ColorBuffer.write_rect this1 data x y width height
                            pixels)).
  { rewrite Hi2, enter_images, Ht2. unfold w1. rewrite leave_images.
    unfold w_out. simpl. apply lookup_insert_eq. }
  pose proof (readPixels_body_identity this2 w_in2 x y width height p_format
                p_type
                (ColorBuffer.write_rect this1 data x y width height pixels))
    as Hread.
  rewrite Hb2, Hb1, Hf2, Hf1 in Hread. specialize (Hread Hin Hid Himg2).
  rewrite Hr2, Hw1, Hr1 in Hread.
  rewrite (read_rect_write_rect this data x y width height pixels Hin Hlen Hpx)
    in Hread.
  eexists this2, _. unfold ColorBuffer.readPixels.
  exact (run_acquired rd this1 w1 l h1 this2 w_in2 _ _ _ Hp1 Hl1 Hacq1 E2 Hread).
Qed.
End RoundTrip.

(** * Lazy parts and fixed dimensions *)

Section LifetimeClaims.
Context {H D : Type} {HH : Helper H} {PD : Platform D}
        {PF : PixelFormats} {IM : Implementer}.
Implicit Types (w : World H D) (l : loc) (h : H) (this : ColorBuffer.t).

Lemma run_all_keeps_dimensions ops this w rets this' w' :
  ColorBuffer.run_all ops this w = Done (rets, this') w' ->
  ColorBuffer.getWidth this' = ColorBuffer.getWidth this
  /\ ColorBuffer.getHeight this' = ColorBuffer.getHeight this.
Proof.
  intros E. apply run_all_effect in E as (Hfix & _).
  unfold ColorBuffer.getWidth, ColorBuffer.getHeight.
  destruct Hfix as (_ & _ & Hw & Hh & _). split; congruence.
Qed.

(** C8.  The dimensions are fixed at creation and never change: an
    instance made by [create] reports the width and height it was created
    with, and so does the instance after every completed sequence of public
    operations, from whatever world the sequence starts. *)
Theorem dimensions_never_change p_display p_width p_height p_internalFormat
    p_frameworkFormat has_eglimage_texture_2d hndl helper w0 cb w1 :
  is_int p_width ->
  is_int p_height ->
  ColorBuffer.create p_display p_width p_height p_internalFormat
    p_frameworkFormat has_eglimage_texture_2d hndl helper w0
  = Done (Some cb) w1 ->
  ColorBuffer.getWidth cb = p_width
  /\ ColorBuffer.getHeight cb = p_height
  /\ forall ops w rets cb' w',
      ColorBuffer.run_all ops cb w = Done (rets, cb') w' ->
      ColorBuffer.getWidth cb' = p_width
      /\ ColorBuffer.getHeight cb' = p_height.
Proof.
  intros Hiw Hih E.
  apply create_instance in E as (Hw & Hh & Hfresh & _).
  destruct Hfresh as (Hmw & Hmh & _).
  assert (Hcw : ColorBuffer.getWidth cb = p_width).
  { unfold ColorBuffer.getWidth. rewrite Hmw.
    apply to_GLuint_positive_int; assumption. }
  assert (Hch : ColorBuffer.getHeight cb = p_height).
  { unfold ColorBuffer.getHeight. rewrite Hmh.
    apply to_GLuint_positive_int; assumption. }
  split; [exact Hcw|]. split; [exact Hch|].
  intros ops w rets cb' w' Erun.
  apply run_all_keeps_dimensions in Erun as [-> ->].
  split; assumption.
Qed.

(** C7.  The blit image and texture, the YUV conversion target and the
    resizer are absent in an instance made by [create].  After any
    completed sequence of public operations each of them is present exactly
    if some operation of the sequence that needs it got past its guard
    ([scale] for the resizer, [subUpdate] on a YUV framework format for the
    conversion target, the operations using the copy target for the blit
    image and texture), and it was created by exactly one call if present
    and none if absent.  Once present a part stays the same object through
    every further sequence of operations and is not created again.  So
    two [scale()] calls in a row, the first being past its guard, both
    return; the first creates the resizer and the second keeps it and
    creates none. *)
Theorem lazy_parts_follow_need p_display p_width p_height p_internalFormat
    p_frameworkFormat has_eglimage_texture_2d hndl helper w0 cb w1 :
  ColorBuffer.create p_display p_width p_height p_internalFormat
    p_frameworkFormat has_eglimage_texture_2d hndl helper w0
  = Done (Some cb) w1 ->
  (ColorBuffer.has_blitTex cb = false
   /\ ColorBuffer.has_blitEGLImage cb = false
   /\ ColorBuffer.has_yuv_conversion_fbo cb = false
   /\ ColorBuffer.has_resizer cb = false)
  /\ (forall ops w rets cb' w',
        ColorBuffer.run_all ops cb w = Done (rets, cb') w' ->
        (ColorBuffer.has_resizer cb'
         = ColorBuffer.some_executed ColorBuffer.needs_resizer ops cb w
         /\ ColorBuffer.has_yuv_conversion_fbo cb'
            = ColorBuffer.some_executed (ColorBuffer.needs_yuv_target cb) ops cb w
         /\ ColorBuffer.has_blitTex cb'
            = ColorBuffer.some_executed usesBlitTarget ops cb w
         /\ ColorBuffer.has_blitEGLImage cb'
            = ColorBuffer.some_executed usesBlitTarget ops cb w)
        /\ (driver_op_calls DrvNewResizer (trace w')
            = (driver_op_calls DrvNewResizer (trace w)
               + (if ColorBuffer.has_resizer cb' then 1 else 0))%nat
            /\ driver_op_calls DrvGenFramebuffer (trace w')
               = (driver_op_calls DrvGenFramebuffer (trace w)
                  + (if ColorBuffer.has_yuv_conversion_fbo cb' then 1 else 0))%nat
            /\ driver_op_calls DrvCreateBlitImage (trace w')
               = (driver_op_calls DrvCreateBlitImage (trace w)
                  + (if ColorBuffer.has_blitTex cb' then 1 else 0))%nat)
        /\ (forall more wm rets2 cb'' w'',
              ColorBuffer.run_all more cb' wm = Done (rets2, cb'') w'' ->
              (ColorBuffer.has_resizer cb' = true ->
               ColorBuffer.m_resizer cb'' = ColorBuffer.m_resizer cb'
               /\ driver_op_calls DrvNewResizer (trace w'')
                  = driver_op_calls DrvNewResizer (trace wm))
              /\ (ColorBuffer.has_yuv_conversion_fbo cb' = true ->
                  ColorBuffer.m_yuv_conversion_fbo cb''
                  = ColorBuffer.m_yuv_conversion_fbo cb'
                  /\ driver_op_calls DrvGenFramebuffer (trace w'')
                     = driver_op_calls DrvGenFramebuffer (trace wm))
              /\ (ColorBuffer.has_blitTex cb' = true ->
                  ColorBuffer.m_blitTex cb'' = ColorBuffer.m_blitTex cb'
                  /\ ColorBuffer.m_blitEGLImage cb''
                     = ColorBuffer.m_blitEGLImage cb'
                  /\ driver_op_calls DrvCreateBlitImage (trace w'')
                     = driver_op_calls DrvCreateBlitImage (trace wm))))
  /\ (forall w,
        ColorBuffer.acquires (ColorBuffer.m_helper cb) w = true ->
        exists r1 cb1 wa r2 cb2 wb,
          ColorBuffer.scale cb w = Done (r1, cb1) wa
          /\ ColorBuffer.scale cb1 wa = Done (r2, cb2) wb
          /\ ColorBuffer.has_resizer cb1 = true
          /\ driver_op_calls DrvNewResizer (trace wa)
             = (driver_op_calls DrvNewResizer (trace w) + 1)%nat
          /\ ColorBuffer.m_resizer cb2 = ColorBuffer.m_resizer cb1
          /\ driver_op_calls DrvNewResizer (trace wb)
             = driver_op_calls DrvNewResizer (trace wa)).
Proof.
  intros E. apply create_instance in E as (_ & _ & Hfresh & _).
  destruct Hfresh as (_ & _ & _ & _ & _ & Hbt & Hbi & Hy & Hr).
  split; [repeat split; assumption|]. split.
  - intros ops w rets cb' w' Erun.
    pose proof (run_all_effect _ _ _ _ _ _ Erun)
      as (_ & Hr' & Hy' & Hb' & Hp' & _ & _ & _ & Cr & Cy & Cb).
    rewrite Hr, Hy, Hbt in *. simpl in Hr', Hy', Hb'.
    rewrite !andb_true_r in Cr, Cy, Cb.
    split.
    { split; [exact Hr'|]. split; [exact Hy'|]. split; [exact Hb'|].
      rewrite <- Hb'. apply Hp'. unfold ColorBuffer.blit_target_paired.
      rewrite Hbi, Hbt. reflexivity. }
    split; [repeat split; assumption|].
    intros more wm rets2 cb'' w'' Emore.
    pose proof (run_all_effect _ _ _ _ _ _ Emore)
      as (_ & Hr2 & Hy2 & Hb2 & _ & Kr & Ky & Kb & Cr2 & Cy2 & Cb2).
    split; [|split].
    + intros Hx. split; [apply Kr, Hx|].
      rewrite Cr2, Hx, andb_false_r. lia.
    + intros Hx. split; [apply Ky, Hx|].
      rewrite Cy2, Hx, andb_false_r. lia.
    + intros Hx. destruct (Kb Hx) as [K1 K2].
      split; [exact K1|]. split; [exact K2|].
      rewrite Cb2, Hx, andb_false_r. lia.
  - intros w Hacq.
    assert (Hlive : exists l h,
               ColorBuffer.m_helper cb = Some l /\ helpers w !! l = Some h).
    { unfold ColorBuffer.acquires in Hacq.
      destruct (ColorBuffer.m_helper cb) as [l|] eqn:Hp; [|discriminate].
      destruct (helpers w !! l) as [h|] eqn:Hl; [|discriminate].
      exists l, h. split; [reflexivity|exact Hl]. }
    destruct Hlive as (l & h & Hp & Hl).
    destruct (scale_completes cb w l h Hp Hl) as (r1 & cb1 & wa & E1 & [h1 Hl1]).
    pose proof E1 as F1. unfold ColorBuffer.scale in F1.
    apply run_effect in F1
      as (Hfix1 & Hr1 & _ & _ & _ & _ & _ & _ & Cr1 & _).
    assert (Hp1 : ColorBuffer.m_helper cb1 = Some l)
      by (rewrite <- Hp; symmetry; apply Hfix1).
    destruct (scale_completes cb1 wa l h1 Hp1 Hl1) as (r2 & cb2 & wb & E2 & _).
    pose proof E2 as F2. unfold ColorBuffer.scale in F2.
    apply run_effect in F2
      as (_ & _ & _ & _ & _ & Kr2 & _ & _ & Cr2 & _).
    rewrite Hr, Hacq in Hr1. simpl in Hr1.
    rewrite Hr1, Hr in Cr1. simpl in Cr1.
    exists r1, cb1, wa, r2, cb2, wb.
    split; [exact E1|]. split; [exact E2|].
    split; [exact Hr1|]. split; [exact Cr1|].
    split; [apply Kr2, Hr1|].
    rewrite Cr2, Hr1, andb_false_r. lia.
Qed.
End LifetimeClaims.

(** * The color buffer theorems at the test doubles *)

Lemma created_buffer : created = Done (Some buffer) world_of_buffer.
Proof. reflexivity. Qed.

(** The helper of the test buffer is torn down again after [create]. *)
Example created_buffer_trace :
  trace world_of_buffer
  = [HelperCall helper_at CallTeardownContext;
     DriverCall DrvCreateImage;
     HelperCall helper_at CallSetupContext;
     HelperCall helper_at CallIsBound].
Proof. reflexivity. Qed.

(** Scenario A on the test buffer: a 2 x 2 red rectangle uploaded at (1,1)
    is read back red, and a pixel outside it is still cleared. *)
Example upload_then_read_on_test_buffer :
  match ColorBuffer.subUpdate buffer 1 1 2 2 6408 5121 red_2x2 world_of_buffer with
  | Done (_, cb1) w1 =>
      match ColorBuffer.readPixels cb1 1 1 2 2 6408 5121 w1,
            ColorBuffer.readPixels cb1 3 3 1 1 6408 5121 w1 with
      | Done (r1, _) _, Done (r2, _) _ =>
          r1 = RetPixels red_2x2
          /\ r2 = RetPixels [Byte.x00; Byte.x00; Byte.x00; Byte.x00]
      | _, _ => False
      end
  | Crash _ => False
  end.
Proof. vm_compute. split; reflexivity. Qed.

(** Scenario D on the test buffer: two [scale()] calls, one resizer. *)
Example scale_twice_on_test_buffer :
  match ColorBuffer.scale buffer world_of_buffer with
  | Done (_, cb1) w1 =>
      match ColorBuffer.scale cb1 w1 with
      | Done (_, cb2) w2 =>
          ColorBuffer.has_resizer buffer = false
          /\ ColorBuffer.has_resizer cb1 = true
          /\ ColorBuffer.m_resizer cb2 = ColorBuffer.m_resizer cb1
          /\ driver_op_calls DrvNewResizer (trace w1) = 1%nat
          /\ driver_op_calls DrvNewResizer (trace w2) = 1%nat
          /\ driver_op_calls DrvResize (trace w2) = 2%nat
      | Crash _ => False
      end
  | Crash _ => False
  end.
Proof. vm_compute. repeat split. Qed.

(** C4 on a helper that is not bound and whose setup fails. *)
Lemma operation_without_context_fails_at_once_witness :
  let h := mkFake false false in
  let w := world h true in
  ColorBuffer.m_helper buffer = Some helper_at
  /\ helpers w !! helper_at = Some h
  /\ isBound h = false
  /\ (setupContext h).1 = false
  /\ exists w1,
       ColorBuffer.run OpBlitFromCurrentReadBuffer buffer w
       = Done (RetBool false, buffer) w1
       /\ trace w1
          = HelperCall helper_at CallSetupContext
            :: HelperCall helper_at CallIsBound :: trace w
       /\ driver_calls (trace w1) = driver_calls (trace w)
       /\ driver w1 = driver w
       /\ images w1 = images w
       /\ calls CallTeardownContext (trace w1)
          = calls CallTeardownContext (trace w)
       /\ ColorBuffer.blitFromCurrentReadBuffer buffer w
          = Done (RetBool false, buffer) w1.
Proof.
  cbv zeta. repeat (split; [reflexivity|]).
  apply (operation_without_context_fails_at_once OpBlitFromCurrentReadBuffer
           buffer (world (mkFake false false) true) helper_at
           (mkFake false false)); reflexivity.
Defined.

(** C5 at width 0, and at 4 x 4 on a driver whose allocation fails. *)
Lemma create_fails_without_instance_witness :
  let w := world (mkFake false true) false in
  ColorBuffer.create NULL 0 4 6408 FRAMEWORK_FORMAT_GL_COMPATIBLE true 9
    (Some helper_at) w = Done None w
  /\ helpers w !! helper_at = Some (mkFake false true)
  /\ (createImage NULL 4 4 (chooseInternalFormat 6408) true (driver w)).1 = None
  /\ exists w1,
       ColorBuffer.create NULL 4 4 6408 FRAMEWORK_FORMAT_GL_COMPATIBLE true 9
         (Some helper_at) w = Done None w1.
Proof.
  cbv zeta.
  split.
  { apply (proj1 (proj2 (create_fails_without_instance NULL 0 4 6408
                           FRAMEWORK_FORMAT_GL_COMPATIBLE true 9))). }
  split; [reflexivity|]. split; [reflexivity|].
  apply (proj1 (proj2 (proj2 (create_fails_without_instance NULL 4 4 6408
                                FRAMEWORK_FORMAT_GL_COMPATIBLE true 9)))
           helper_at (mkFake false true)); reflexivity.
Defined.

(** C6 on the test buffer, with the red rectangle at (1,1). *)
Lemma sub_update_then_read_pixels_round_trip_witness :
  ColorBuffer.acquires (ColorBuffer.m_helper buffer) world_of_buffer = true
  /\ ColorBuffer.in_bounds buffer 1 1 2 2 = true
  /\ ColorBuffer.is_internal buffer 6408 5121 = true
  /\ is_yuv (ColorBuffer.m_frameworkFormat buffer) = false
  /\ ColorBuffer.primary_image_ok buffer world_of_buffer
  /\ length red_2x2
     = (Z.to_nat 2 * (Z.to_nat 2 * ColorBuffer.internal_bpp buffer))%nat
  /\ exists this1 w1,
       ColorBuffer.subUpdate buffer 1 1 2 2 6408 5121 red_2x2 world_of_buffer
       = Done (RetVoid, this1) w1
       /\ (ColorBuffer.acquires (ColorBuffer.m_helper this1) w1 = true ->
           exists this2 w2,
             ColorBuffer.readPixels this1 1 1 2 2 6408 5121 w1
             = Done (RetPixels red_2x2, this2) w2).
Proof.
  assert (Himg : ColorBuffer.primary_image_ok buffer world_of_buffer)
    by (exists (replicate 64 Byte.x00); split; reflexivity).
  repeat (split; [reflexivity|]).
  split; [exact Himg|]. split; [reflexivity|].
  apply (sub_update_then_read_pixels_round_trip buffer world_of_buffer
           1 1 2 2 6408 5121 red_2x2); (reflexivity || exact Himg).
Defined.

(** C7 on the test buffer. *)
Lemma lazy_parts_follow_need_witness :
  created = Done (Some buffer) world_of_buffer
  /\ ColorBuffer.has_resizer buffer = false
  /\ forall w : World FakeHelper FakeDriver,
      ColorBuffer.acquires (ColorBuffer.m_helper buffer) w = true ->
      exists r1 cb1 wa r2 cb2 wb,
        ColorBuffer.scale buffer w = Done (r1, cb1) wa
        /\ ColorBuffer.scale cb1 wa = Done (r2, cb2) wb
        /\ ColorBuffer.has_resizer cb1 = true
        /\ driver_op_calls DrvNewResizer (trace wa)
           = (driver_op_calls DrvNewResizer (trace w) + 1)%nat
        /\ ColorBuffer.m_resizer cb2 = ColorBuffer.m_resizer cb1
        /\ driver_op_calls DrvNewResizer (trace wb)
           = driver_op_calls DrvNewResizer (trace wa).
Proof.
  split; [reflexivity|].
  pose proof (lazy_parts_follow_need NULL 4 4 6408
                FRAMEWORK_FORMAT_GL_COMPATIBLE true 9 (Some helper_at)
                (world (mkFake false true) true) buffer world_of_buffer
                eq_refl) as [Habsent [_ Hscale]].
  split; [apply Habsent|exact Hscale].
Defined.

(** C8 on the test buffer. *)
Lemma dimensions_never_change_witness :
  is_int 4
  /\ created = Done (Some buffer) world_of_buffer
  /\ ColorBuffer.getWidth buffer = 4
  /\ ColorBuffer.getHeight buffer = 4
  /\ forall ops (w : World FakeHelper FakeDriver) rets cb' w',
      ColorBuffer.run_all ops buffer w = Done (rets, cb') w' ->
      ColorBuffer.getWidth cb' = 4 /\ ColorBuffer.getHeight cb' = 4.
Proof.
  assert (Hint : is_int 4) by (unfold is_int; lia).
  split; [exact Hint|]. split; [reflexivity|].
  exact (dimensions_never_change NULL 4 4 6408 FRAMEWORK_FORMAT_GL_COMPATIBLE
           true 9 (Some helper_at) (world (mkFake false true) true)
           buffer world_of_buffer Hint Hint eq_refl).
Defined.

(** * Further properties of the scoped guard *)

Section GuardCalls.
Context {H D : Type} {HH : Helper H}.
Implicit Types (w : World H D) (l : loc) (h : H) (g : t).



(** X1.  After construction on a live helper, [isOk()] is true exactly when
    a context was already bound or [setupContext()] succeeded; a teardown
    is owed exactly when the guard itself made the successful setup; and
    [mHelper] is the constructor's argument when the guard is ok and [NULL]
    otherwise. *)
Theorem guard_is_ok_iff_context_available w l h :
  helpers w !! l = Some h ->
  exists g w1,
    ctor (Some l) w = Done g w1
    /\ isOk g = isBound h || (setupContext h).1
    /\ mNeedUnbind g = negb (isBound h) && (setupContext h).1
    /\ mHelper g
       = (if isBound h || (setupContext h).1 then Some l else NULL).
Proof.
  intros Hl.
  destruct (isBound h) eqn:Hb; [|destruct (setupContext h).1 eqn:Hs].
  - eexists _, _. split; [exact (ctor_bound _ _ _ Hl Hb)|]. repeat split.
  - eexists _, _. split; [exact (ctor_setup_done _ _ _ Hl Hb Hs)|].
    repeat split.
  - eexists _, _. split; [exact (ctor_setup_failed _ _ _ Hl Hb Hs)|].
    repeat split.
Qed.

(** X2.  The calls of the constructor on a live helper: [isBound()] first
    and exactly once; then [setupContext()], once, if and only if
    [isBound()] answered false; nothing else, so never
    [teardownContext()] and never [getTextureDraw()].  The helper object is
    left as it was when a context was bound, and as [setupContext()] left
    it otherwise, whether the setup succeeded or not. *)
Theorem constructor_call_sequence w l h :
  helpers w !! l = Some h ->
  exists g w1,
    ctor (Some l) w = Done g w1
    /\ trace w1
       = (if isBound h then [HelperCall l CallIsBound]
          else [HelperCall l CallSetupContext; HelperCall l CallIsBound])
         ++ trace w
    /\ helpers w1
       = (if isBound h then helpers w
          else <[l := (setupContext h).2]> (helpers w))
    /\ calls CallIsBound (trace w1) = S (calls CallIsBound (trace w))
    /\ calls CallSetupContext (trace w1)
       = ((if isBound h then 0 else 1) + calls CallSetupContext (trace w))%nat
    /\ calls CallTeardownContext (trace w1)
       = calls CallTeardownContext (trace w)
    /\ calls CallGetTextureDraw (trace w1)
       = calls CallGetTextureDraw (trace w).
Proof.
  intros Hl.
  destruct (isBound h) eqn:Hb; [|destruct (setupContext h).1 eqn:Hs].
  - eexists _, _. split; [exact (ctor_bound _ _ _ Hl Hb)|]. repeat split.
  - eexists _, _. split; [exact (ctor_setup_done _ _ _ Hl Hb Hs)|].
    repeat split.
  - eexists _, _. split; [exact (ctor_setup_failed _ _ _ Hl Hb Hs)|].
    repeat split.
Qed.

(** X3.  A guard that made the setup tears down through the pointer it was
    constructed with, at its first release or else at its destructor: the
    one call made is [teardownContext()] on that helper, it acts on the
    state the helper has at that moment, and nothing else in the world
    changes, however many [release()] calls there are. *)
Theorem teardown_reaches_the_constructor_helper w l h :
  helpers w !! l = Some h ->
  isBound h = false ->
  (setupContext h).1 = true ->
  exists g w1,
    ctor (Some l) w = Done g w1
    /\ isOk g = true
    /\ forall n w2 h2,
        helpers w2 !! l = Some h2 ->
        exists w3,
          release_then_destroy n g w2 = Done tt w3
          /\ trace w3 = HelperCall l CallTeardownContext :: trace w2
          /\ helpers w3 = <[l := teardownContext h2]> (helpers w2)
          /\ driver w3 = driver w2
          /\ images w3 = images w2.
Proof.
  intros Hl Hb Hs. eexists _, _.
  split; [exact (ctor_setup_done _ _ _ Hl Hb Hs)|]. split; [reflexivity|].
  intros n w2 h2 Hl2. eexists.
  split; [exact (release_then_destroy_owed n (mk (Some l) true) w2 l h2 eq_refl eq_refl Hl2)|].
  repeat split.
Qed.

End GuardCalls.

Section GuardNesting.
Context {H D : Type} {HH : Helper H}.
Implicit Types (w : World H D) (l : loc) (h : H) (g : t).

Lemma replicate_then_one {A} n (x : A) (tl : list A) :
  replicate n x ++ x :: tl = x :: replicate n x ++ tl.
Proof. induction n as [|n IH]; simpl; [reflexivity|]. rewrite IH. reflexivity. Qed.

Lemma calls_app m (a b : list Event) :
  calls m (a ++ b) = (calls m a + calls m b)%nat.
Proof. unfold calls. rewrite List.filter_app, length_app. reflexivity. Qed.

Lemma calls_cons m e (tl : list Event) :
  calls m (e :: tl) = ((if is_call m e then 1 else 0) + calls m tl)%nat.
Proof. unfold calls. simpl. destruct (is_call m e); reflexivity. Qed.

Lemma calls_replicate m e n :
  calls m (replicate n e) = (if is_call m e then n else 0%nat).
Proof.
  unfold calls. induction n as [|n IH]; simpl.
  - destruct (is_call m e); reflexivity.
  - destruct (is_call m e) eqn:E; simpl; rewrite IH; reflexivity.
Qed.

Ltac count_calls :=
  repeat (rewrite calls_app || rewrite calls_replicate || rewrite calls_cons);
  cbn [is_call HelperMethod_eqb app]; lia.

(** Guards nested on a helper with a context bound only ask [isBound()]. *)
Lemma nested_scopes_bound n : forall w l h,
  helpers w !! l = Some h ->
  isBound h = true ->
  nested_scopes n (Some l) w
  = Done tt (mkWorld (helpers w) (driver w) (images w)
               (replicate n (HelperCall l CallIsBound) ++ trace w)).
Proof.
  induction n as [|n IH]; intros w l h Hl Hb.
  - destruct w; reflexivity.
  - simpl. unfold bind. rewrite (ctor_bound _ _ _ Hl Hb).
    rewrite (IH _ l h) by (exact Hl || exact Hb).
    rewrite dtor_nothing_owed by reflexivity.
    simpl. rewrite replicate_then_one. reflexivity.
Qed.

(** X5.  The usage pattern given with the class, on a helper whose guard is
    ok and on which a successful setup leaves a context bound: the body
    starts with [isBound()] true; when the body returns and the helper is
    still there, the pattern returns the body's result, and the only call
    after the body is the [teardownContext()] of a guard that made the
    setup, none at all when the context was bound before. *)
Theorem usage_pattern_runs_body_under_a_bound_context {A} w l h
    (failure : A) (body : M H D A) :
  setup_makes_bound ->
  helpers w !! l = Some h ->
  isBound h || (setupContext h).1 = true ->
  (exists h_in,
      helpers (ColorBuffer.enter l h w) !! l = Some h_in
      /\ isBound h_in = true)
  /\ forall r w_out,
      body (ColorBuffer.enter l h w) = Done r w_out ->
      is_Some (helpers w_out !! l) ->
      exists w',
        ColorBuffer.with_context (Some l) failure body w = Done r w'
        /\ trace w'
           = (if isBound h then []
              else [HelperCall l CallTeardownContext]) ++ trace w_out
        /\ driver w' = driver w_out
        /\ images w' = images w_out.
Proof.
  intros Hlaw Hl Hok. split.
  - unfold ColorBuffer.enter. destruct (isBound h) eqn:Hb.
    + exists h. split; [exact Hl|exact Hb].
    + exists (setupContext h).2. simpl in Hok.
      split; [apply lookup_insert_eq|apply Hlaw, Hok].
  - intros r w_out Hbody Hlive. eexists.
    split; [exact (with_context_acquired _ _ _ _ _ _ _ Hl Hok Hbody Hlive)|].
    destruct Hlive as [h_out Hout]. unfold ColorBuffer.leave.
    destruct (isBound h); simpl; [repeat split|].
    rewrite Hout. repeat split.
Qed.

(** X6.  Nesting is free.  On a helper whose guard is ok and on which a
    successful setup leaves a context bound, any number of guards nested
    in one another make together one [setupContext()] and one
    [teardownContext()] call if no context was bound before, none if one
    was, and one [isBound()] call each; the teardown is the last call,
    after the innermost scopes have closed. *)
Theorem nested_guards_set_up_and_tear_down_once n w l h :
  setup_makes_bound ->
  helpers w !! l = Some h ->
  isBound h || (setupContext h).1 = true ->
  exists w',
    nested_scopes (S n) (Some l) w = Done tt w'
    /\ trace w'
       = (if isBound h then [] else [HelperCall l CallTeardownContext])
         ++ replicate n (HelperCall l CallIsBound)
         ++ (if isBound h then [HelperCall l CallIsBound]
             else [HelperCall l CallSetupContext; HelperCall l CallIsBound])
         ++ trace w
    /\ calls CallIsBound (trace w') = (S n + calls CallIsBound (trace w))%nat
    /\ calls CallSetupContext (trace w')
       = ((if isBound h then 0 else 1) + calls CallSetupContext (trace w))%nat
    /\ calls CallTeardownContext (trace w')
       = ((if isBound h then 0 else 1)
          + calls CallTeardownContext (trace w))%nat
    /\ driver w' = driver w
    /\ images w' = images w.
Proof.
  intros Hlaw Hl Hok.
  destruct (isBound h) eqn:Hb.
  - eexists. split.
    { cbn [nested_scopes]. unfold bind. rewrite (ctor_bound _ _ _ Hl Hb).
      rewrite (nested_scopes_bound n _ l h) by (exact Hl || exact Hb).
      rewrite dtor_nothing_owed by reflexivity. reflexivity. }
    cbn [trace driver images log_event].
    split; [reflexivity|].
    split; [count_calls|].
    split; [count_calls|].
    split; [count_calls|].
    split; reflexivity.
  - simpl in Hok.
    set (w1 := put_helper l (setupContext h).2
                 (log_event (HelperCall l CallSetupContext)
                    (log_event (HelperCall l CallIsBound) w))).
    assert (Hl1 : helpers w1 !! l = Some (setupContext h).2)
      by apply lookup_insert_eq.
    eexists. split.
    { cbn [nested_scopes]. unfold bind.
      rewrite (ctor_setup_done _ _ _ Hl Hb Hok). fold w1.
      rewrite (nested_scopes_bound n w1 l (setupContext h).2)
        by (exact Hl1 || apply Hlaw, Hok).
      unfold dtor, bind.
      rewrite (release_owed (mk (Some l) true) _ l (setupContext h).2)
        by (reflexivity || exact Hl1).
      reflexivity. }
    cbn [trace driver images log_event put_helper w1].
    split; [reflexivity|].
    split; [count_calls|].
    split; [count_calls|].
    split; [count_calls|].
    split; reflexivity.
Qed.

(** X7.  A guard keeps no count of the guards nested in it.  When the
    outer guard, which made the setup, is released by hand while an inner
    guard on the same helper is still in scope, the context is torn down
    at once: [teardownContext()] is the last call made, the inner guard
    still answers [isOk()] true, and the inner guard makes no call when it
    is released or destroyed later. *)
Theorem released_outer_guard_tears_down_under_inner w l h :
  setup_makes_bound ->
  helpers w !! l = Some h ->
  isBound h = false ->
  (setupContext h).1 = true ->
  exists outer1 inner w',
    release_outer_first (Some l) w = Done (outer1, inner) w'
    /\ isOk outer1 = false
    /\ isOk inner = true
    /\ trace w'
       = [HelperCall l CallTeardownContext; HelperCall l CallIsBound;
          HelperCall l CallSetupContext; HelperCall l CallIsBound]
         ++ trace w
    /\ helpers w' !! l = Some (teardownContext (setupContext h).2)
    /\ forall n w2, release_then_destroy n inner w2 = Done tt w2.
Proof.
  intros Hlaw Hl Hb Hs.
  set (w1 := put_helper l (setupContext h).2
               (log_event (HelperCall l CallSetupContext)
                  (log_event (HelperCall l CallIsBound) w))).
  assert (Hl1 : helpers w1 !! l = Some (setupContext h).2)
    by apply lookup_insert_eq.
  eexists _, _, _. split.
  { unfold release_outer_first, bind.
    rewrite (ctor_setup_done _ _ _ Hl Hb Hs). fold w1.
    rewrite (ctor_bound w1 l _ Hl1 (Hlaw _ Hs)).
    rewrite (release_owed (mk (Some l) true) _ l (setupContext h).2)
      by (reflexivity || exact Hl1).
    reflexivity. }
  split; [reflexivity|]. split; [reflexivity|]. split; [reflexivity|].
  split; [apply lookup_insert_eq|].
  intros n w2. apply release_then_destroy_nothing_owed. reflexivity.
Qed.
End GuardNesting.

(** ** The further guard theorems at the test doubles *)

Lemma fake_setup_makes_bound : @setup_makes_bound FakeHelper fake_helper.
Proof. intros [b s]. simpl. intros ->. reflexivity. Qed.

(** X1 on a helper that is not bound and whose setup succeeds. *)
Lemma guard_is_ok_iff_context_available_witness :
  let h := mkFake false true in
  let w := world h true in
  helpers w !! helper_at = Some h
  /\ exists g w1,
       ctor (Some helper_at) w = Done g w1
       /\ isOk g = true
       /\ mNeedUnbind g = true
       /\ mHelper g = Some helper_at.
Proof.
  cbv zeta. split; [reflexivity|].
  exact (guard_is_ok_iff_context_available
           (world (mkFake false true) true) helper_at (mkFake false true)
           eq_refl).
Defined.

(** X2 on a helper that is not bound and whose setup fails. *)
Lemma constructor_call_sequence_witness :
  let h := mkFake false false in
  let w := world h true in
  helpers w !! helper_at = Some h
  /\ exists g w1,
       ctor (Some helper_at) w = Done g w1
       /\ trace w1
          = [HelperCall helper_at CallSetupContext;
             HelperCall helper_at CallIsBound]
       /\ helpers w1 = <[helper_at := h]> (helpers w)
       /\ calls CallIsBound (trace w1) = 1%nat
       /\ calls CallSetupContext (trace w1) = 1%nat
       /\ calls CallTeardownContext (trace w1) = 0%nat
       /\ calls CallGetTextureDraw (trace w1) = 0%nat.
Proof.
  cbv zeta. split; [reflexivity|].
  exact (constructor_call_sequence
           (world (mkFake false false) true) helper_at (mkFake false false)
           eq_refl).
Defined.

(** X3 on a helper that is not bound and whose setup succeeds. *)
Lemma teardown_reaches_the_constructor_helper_witness :
  let h := mkFake false true in
  let w := world h true in
  helpers w !! helper_at = Some h
  /\ isBound h = false
  /\ (setupContext h).1 = true
  /\ exists g w1,
       ctor (Some helper_at) w = Done g w1
       /\ isOk g = true
       /\ forall n (w2 : World FakeHelper FakeDriver) h2,
           helpers w2 !! helper_at = Some h2 ->
           exists w3,
             release_then_destroy n g w2 = Done tt w3
             /\ trace w3 = HelperCall helper_at CallTeardownContext :: trace w2
             /\ helpers w3 = <[helper_at := teardownContext h2]> (helpers w2)
             /\ driver w3 = driver w2
             /\ images w3 = images w2.
Proof.
  cbv zeta. repeat (split; [reflexivity|]).
  exact (teardown_reaches_the_constructor_helper
           (world (mkFake false true) true) helper_at (mkFake false true)
           eq_refl eq_refl eq_refl).
Defined.


(** X5 on a helper that is not bound and whose setup succeeds, with a body
    that makes one driver call. *)
Lemma usage_pattern_runs_body_under_a_bound_context_witness :
  let h := mkFake false true in
  let w := world h true in
  let body : M FakeHelper FakeDriver bool :=
    ColorBuffer.drv DrvDraw (textureDraw NULL 1) in
  @setup_makes_bound FakeHelper fake_helper
  /\ helpers w !! helper_at = Some h
  /\ isBound h || (setupContext h).1 = true
  /\ (exists h_in,
         helpers (ColorBuffer.enter helper_at h w) !! helper_at = Some h_in
         /\ isBound h_in = true)
  /\ exists w',
       ColorBuffer.with_context (Some helper_at) false body w = Done true w'
       /\ trace w'
          = [HelperCall helper_at CallTeardownContext; DriverCall DrvDraw;
             HelperCall helper_at CallSetupContext;
             HelperCall helper_at CallIsBound].
Proof.
  cbv zeta. split; [exact fake_setup_makes_bound|].
  split; [reflexivity|]. split; [reflexivity|].
  pose proof (usage_pattern_runs_body_under_a_bound_context
                (world (mkFake false true) true) helper_at (mkFake false true)
                false (ColorBuffer.drv DrvDraw (textureDraw NULL 1))
                fake_setup_makes_bound eq_refl eq_refl) as [Hin Hout].
  split; [exact Hin|].
  destruct (Hout true _ eq_refl) as (w' & E & Ht & _).
  { eexists. reflexivity. }
  exists w'. split; [exact E|]. rewrite Ht. reflexivity.
Defined.

(** X6 on three nested guards on a helper that is not bound and whose setup
    succeeds. *)
Lemma nested_guards_set_up_and_tear_down_once_witness :
  let h := mkFake false true in
  let w := world h true in
  @setup_makes_bound FakeHelper fake_helper
  /\ helpers w !! helper_at = Some h
  /\ isBound h || (setupContext h).1 = true
  /\ exists w',
       nested_scopes 3 (Some helper_at) w = Done tt w'
       /\ trace w'
          = [HelperCall helper_at CallTeardownContext;
             HelperCall helper_at CallIsBound;
             HelperCall helper_at CallIsBound;
             HelperCall helper_at CallSetupContext;
             HelperCall helper_at CallIsBound]
       /\ calls CallIsBound (trace w') = 3%nat
       /\ calls CallSetupContext (trace w') = 1%nat
       /\ calls CallTeardownContext (trace w') = 1%nat
       /\ driver w' = driver w
       /\ images w' = images w.
Proof.
  cbv zeta. split; [exact fake_setup_makes_bound|].
  split; [reflexivity|]. split; [reflexivity|].
  exact (nested_guards_set_up_and_tear_down_once 2
           (world (mkFake false true) true) helper_at (mkFake false true)
           fake_setup_makes_bound eq_refl eq_refl).
Defined.

(** X7 on a helper that is not bound and whose setup succeeds. *)
Lemma released_outer_guard_tears_down_under_inner_witness :
  let h := mkFake false true in
  let w := world h true in
  @setup_makes_bound FakeHelper fake_helper
  /\ helpers w !! helper_at = Some h
  /\ isBound h = false
  /\ (setupContext h).1 = true
  /\ exists outer1 inner w',
       release_outer_first (Some helper_at) w = Done (outer1, inner) w'
       /\ isOk outer1 = false
       /\ isOk inner = true
       /\ trace w'
          = [HelperCall helper_at CallTeardownContext;
             HelperCall helper_at CallIsBound;
             HelperCall helper_at CallSetupContext;
             HelperCall helper_at CallIsBound]
       /\ helpers w' !! helper_at = Some (mkFake false true)
       /\ forall n (w2 : World FakeHelper FakeDriver),
           release_then_destroy n inner w2 = Done tt w2.
Proof.
  cbv zeta. split; [exact fake_setup_makes_bound|].
  repeat (split; [reflexivity|]).
  exact (released_outer_guard_tears_down_under_inner
           (world (mkFake false true) true) helper_at (mkFake false true)
           fake_setup_makes_bound eq_refl eq_refl eq_refl).
Defined.
